(** * A shallow embedding of [bioregistry_curator/app.py]

    Python [str] values are modelled as [string], whose 8-bit characters are
    read as the Latin-1 code points U+0000..U+00FF; character classes
    ([\s], [\d], [str.strip], [str.lower], [str.splitlines]) follow Python's
    Unicode definitions restricted to that range. *)

From Stdlib Require Import String Ascii List ZArith Lia Bool.
From Stdlib Require Import Numbers.DecimalString.
Import ListNotations.

(** ** Characters *)

Definition code (c : ascii) : nat := nat_of_ascii c.

(** [str.isspace] / regex [\s] on Latin-1. *)
Definition is_space (c : ascii) : bool :=
  let n := code c in
  ((9 <=? n) && (n <=? 13)) || ((28 <=? n) && (n <=? 32))
  || (n =? 133) || (n =? 160).

(** regex [\d]: the Unicode decimal digits of Latin-1 are the ASCII ones. *)
Definition is_digit (c : ascii) : bool :=
  let n := code c in (48 <=? n) && (n <=? 57).

(** regex class [A-Z]. *)
Definition is_upper_az (c : ascii) : bool :=
  let n := code c in (65 <=? n) && (n <=? 90).

(** regex class [0-9a-zA-Z]. *)
Definition is_alnum_ascii (c : ascii) : bool :=
  is_digit c || is_upper_az c || (let n := code c in (97 <=? n) && (n <=? 122)).

(** [str.lower] on Latin-1: A-Z, U+00C0..U+00D6 and U+00D8..U+00DE. *)
Definition lower_char (c : ascii) : ascii :=
  let n := code c in
  if ((65 <=? n) && (n <=? 90)) || ((192 <=? n) && (n <=? 222) && negb (n =? 215))
  then ascii_of_nat (n + 32) else c.

Fixpoint lower (s : string) : string :=
  match s with
  | EmptyString => EmptyString
  | String c r => String (lower_char c) (lower r)
  end.

Fixpoint forall_chars (p : ascii -> bool) (s : string) : bool :=
  match s with
  | EmptyString => true
  | String c r => p c && forall_chars p r
  end.

Fixpoint filter_chars (p : ascii -> bool) (s : string) : string :=
  match s with
  | EmptyString => EmptyString
  | String c r => if p c then String c (filter_chars p r) else filter_chars p r
  end.

Open Scope string_scope.

(** ** [str.strip] *)

Fixpoint lstrip (s : string) : string :=
  match s with
  | EmptyString => EmptyString
  | String c r => if is_space c then lstrip r else s
  end.

Fixpoint rev_string (s : string) : string :=
  match s with
  | EmptyString => EmptyString
  | String c r => rev_string r ++ String c EmptyString
  end.

Definition rstrip (s : string) : string := rev_string (lstrip (rev_string s)).

Definition strip (s : string) : string := rstrip (lstrip s).

(** ** Scanning an abstract for URLs (app.py lines 66-68 and 461-462)

    [re.findall(r"https?://[^\s\)\]]+", text)].  A match starts where
    [http://] or [https://] is followed by a character of the class
    [[^\s\)\]]]; it then extends greedily over that class.  The scanner below
    reads the text one character at a time: [None] while looking for a match,
    [Some acc] inside one. *)

Definition is_url_stop (c : ascii) : bool :=
  is_space c || Ascii.eqb c ")" || Ascii.eqb c "]".

(** [lit] is a prefix of [s] and the character after it is in [[^\s\)\]]]. *)
Fixpoint lit_then_nonstop (lit s : string) : bool :=
  match lit, s with
  | EmptyString, String c _ => negb (is_url_stop c)
  | EmptyString, EmptyString => false
  | String a l, String c r => Ascii.eqb a c && lit_then_nonstop l r
  | String _ _, EmptyString => false
  end.

Definition url_starts (s : string) : bool :=
  lit_then_nonstop "https://" s || lit_then_nonstop "http://" s.

Fixpoint findall_urls (inside : option string) (s : string) : list string :=
  match inside, s with
  | None, EmptyString => []
  | None, String c r =>
      if url_starts s then findall_urls (Some (String c EmptyString)) r
      else findall_urls None r
  | Some acc, EmptyString => [acc]
  | Some acc, String c r =>
      if is_url_stop c then acc :: findall_urls None r
      else findall_urls (Some (acc ++ String c EmptyString)) r
  end.

(** [re.sub(r"[\.,;:]+$", '', u)]: [u] holds no newline (it is a [findall]
    match), so [$] is the end of [u] and the leftmost match is the whole
    trailing run of [.,;:]. *)
Definition is_trail_punct (c : ascii) : bool :=
  Ascii.eqb c "." || Ascii.eqb c "," || Ascii.eqb c ";" || Ascii.eqb c ":".

Fixpoint lstrip_with (p : ascii -> bool) (s : string) : string :=
  match s with
  | EmptyString => EmptyString
  | String c r => if p c then lstrip_with p r else s
  end.

Definition strip_trailing_punct (u : string) : string :=
  rev_string (lstrip_with is_trail_punct (rev_string u)).

(** [urls = [re.sub(...) for u in re.findall(...)]] *)
Definition find_urls (text : string) : list string :=
  map strip_trailing_punct (findall_urls None text).

(** The same list, described run by run (specification side): the text is cut
    into its maximal runs of characters other than whitespace, [)] and [\]];
    each run contributes the part of it from the first place where [http://]
    or [https://] is followed by at least one more character of the run, to
    the run's end; trailing [.,;:] are then stripped. *)
Definition lit_then_more (lit t : string) : bool :=
  String.prefix lit t && (String.length lit <? String.length t)%nat.

(** The maximal runs of characters outside [p], as [(first run, later runs)];
    the first run may be empty. *)
Fixpoint runs_by (p : ascii -> bool) (s : string) : string * list string :=
  match s with
  | EmptyString => (EmptyString, [])
  | String c r =>
      let (t, ts) := runs_by p r in
      if p c
      then (EmptyString, match t with EmptyString => ts | _ => t :: ts end)
      else (String c t, ts)
  end.

Definition runs_aux (s : string) : string * list string := runs_by is_url_stop s.

Definition runs (s : string) : list string :=
  let (t, ts) := runs_aux s in
  match t with EmptyString => ts | _ => t :: ts end.

Fixpoint first_url_in_run (t : string) : option string :=
  match t with
  | EmptyString => None
  | String _ r =>
      if lit_then_more "https://" t || lit_then_more "http://" t then Some t
      else first_url_in_run r
  end.

Definition url_of_run (t : string) : list string :=
  match first_url_in_run t with Some u => [u] | None => [] end.

Definition spec_urls (text : string) : list string :=
  map strip_trailing_punct (flat_map url_of_run (runs text)).

(** ** Python values

    The values the program reads from JSON bodies and from the PubMed
    client: [None], [bool], [int], [str], [list] and [dict].  Dictionary keys
    are strings (as in JSON) and [.get] returns the first binding. *)

#[warnings="-register-all"]
Inductive pyval : Type :=
| PyNone
| PyBool (b : bool)
| PyInt (z : Z)
| PyStr (s : string)
| PyList (l : list pyval)
| PyDict (d : list (string * pyval)).

Definition pydict := list (string * pyval).

Fixpoint dict_get (d : pydict) (k : string) : option pyval :=
  match d with
  | [] => None
  | (k', v) :: r => if String.eqb k k' then Some v else dict_get r k
  end.

(** Python truthiness. *)
Definition truthy (v : pyval) : bool :=
  match v with
  | PyNone => false
  | PyBool b => b
  | PyInt z => negb (Z.eqb z 0)
  | PyStr s => negb (String.eqb s EmptyString)
  | PyList l => match l with [] => false | _ => true end
  | PyDict d => match d with [] => false | _ => true end
  end.

(** [a or b] *)
Definition py_or (a b : pyval) : pyval := if truthy a then a else b.

Definition type_name (v : pyval) : string :=
  match v with
  | PyNone => "NoneType" | PyBool _ => "bool" | PyInt _ => "int"
  | PyStr _ => "str" | PyList _ => "list" | PyDict _ => "dict"
  end.

(** ** [str()] and [repr()] *)

Definition Z_to_dec (z : Z) : string := NilZero.string_of_int (Z.to_int z).
Definition nat_to_dec (n : nat) : string := NilZero.string_of_uint (Nat.to_uint n).

Definition hex_digit (n : nat) : ascii :=
  if (n <? 10)%nat then ascii_of_nat (48 + n) else ascii_of_nat (87 + n).

Definition repr_char (quote : ascii) (c : ascii) : string :=
  let n := code c in
  if Ascii.eqb c "\" then String "\" (String "\" EmptyString)
  else if Ascii.eqb c quote then String "\" (String c EmptyString)
  else if (n =? 9)%nat then "\t"
  else if (n =? 10)%nat then "\n"
  else if (n =? 13)%nat then "\r"
  else if (n <? 32)%nat || ((127 <=? n)%nat && (n <=? 160)%nat) || (n =? 173)%nat
  then String "\" (String "x" (String (hex_digit (n / 16)) (String (hex_digit (n mod 16)) EmptyString)))
  else String c EmptyString.

Fixpoint has_char (c : ascii) (s : string) : bool :=
  match s with
  | EmptyString => false
  | String x r => Ascii.eqb x c || has_char c r
  end.

Fixpoint concat_map (f : ascii -> string) (s : string) : string :=
  match s with
  | EmptyString => EmptyString
  | String c r => f c ++ concat_map f r
  end.

(** [repr(s)] for a [str]: single quotes unless [s] holds a single quote and
    no double quote. *)
Definition repr_str (s : string) : string :=
  let dq := ascii_of_nat 34 in
  let q : ascii := if has_char "'" s && negb (has_char dq s) then dq else "'"%char in
  String q (concat_map (repr_char q) s ++ String q EmptyString).

Fixpoint py_repr (v : pyval) : string :=
  match v with
  | PyNone => "None"
  | PyBool b => if b then "True" else "False"
  | PyInt z => Z_to_dec z
  | PyStr s => repr_str s
  | PyList l => "[" ++ String.concat ", " (map py_repr l) ++ "]"
  | PyDict d =>
      "{" ++ String.concat ", " (map (fun kv => repr_str (fst kv) ++ ": " ++ py_repr (snd kv)) d)
      ++ "}"
  end.

Definition py_str (v : pyval) : string :=
  match v with PyStr s => s | _ => py_repr v end.

(** ** Exceptions

    A raised exception carries its class name and [str(e)]; messages are
    those of CPython 3.12. *)

Record exn := Exn { exn_type : string; exn_msg : string }.

Inductive res (A : Type) : Type :=
| Ok (a : A)
| Raise (e : exn).
Arguments Ok {A} a.
Arguments Raise {A} e.

Definition bind {A B} (m : res A) (k : A -> res B) : res B :=
  match m with Ok a => k a | Raise e => Raise e end.

Notation "x <- m ;; k" := (bind m (fun x => k))
  (at level 61, m at next level, right associativity).

Definition attr_error (v : pyval) (attr : string) : exn :=
  Exn "AttributeError" ("'" ++ type_name v ++ "' object has no attribute '" ++ attr ++ "'").

Definition not_subscriptable (v : pyval) : exn :=
  Exn "TypeError" ("'" ++ type_name v ++ "' object is not subscriptable").

Definition re_type_error (v : pyval) : exn :=
  Exn "TypeError" ("expected string or bytes-like object, got '" ++ type_name v ++ "'").

(** [v.get(k)] *)
Definition py_get (v : pyval) (k : string) : res pyval :=
  match v with
  | PyDict d => Ok (match dict_get d k with Some x => x | None => PyNone end)
  | _ => Raise (attr_error v "get")
  end.

(** [v[0]] *)
Definition py_index0 (v : pyval) : res pyval :=
  match v with
  | PyList (x :: _) => Ok x
  | PyList [] => Raise (Exn "IndexError" "list index out of range")
  | PyStr (String c _) => Ok (PyStr (String c EmptyString))
  | PyStr EmptyString => Raise (Exn "IndexError" "string index out of range")
  | PyDict _ => Raise (Exn "KeyError" "0")
  | _ => Raise (not_subscriptable v)
  end.

(** ** [int()] *)

Definition digit_val (c : ascii) : Z := Z.of_nat (code c - 48).

(** Decimal digits with single underscores between them. *)
Fixpoint parse_uint_us (n : Z) (need_digit : bool) (s : string) : option Z :=
  match s with
  | EmptyString => if need_digit then None else Some n
  | String c r =>
      if is_digit c then parse_uint_us (10 * n + digit_val c)%Z false r
      else if Ascii.eqb c "_" then (if need_digit then None else parse_uint_us n true r)
      else None
  end.

Definition parse_int (s : string) : option Z :=
  match s with
  | String c r =>
      if Ascii.eqb c "-" then option_map Z.opp (parse_uint_us 0 true r)
      else if Ascii.eqb c "+" then parse_uint_us 0 true r
      else parse_uint_us 0 true s
  | EmptyString => None
  end.

Definition py_int (v : pyval) : res Z :=
  match v with
  | PyInt z => Ok z
  | PyBool b => Ok (if b then 1 else 0)%Z
  | PyStr s =>
      match parse_int (strip s) with
      | Some z => Ok z
      | None => Raise (Exn "ValueError" ("invalid literal for int() with base 10: " ++ repr_str s))
      end
  | _ => Raise (Exn "TypeError" ("int() argument must be a string, a bytes-like object or a real number, not '" ++ type_name v ++ "'"))
  end.

(** [re.search(r"(19|20)\d{2}", pubdate)] and [int(m.group(0))] *)
Definition year_at (s : string) : option Z :=
  match s with
  | String a (String b (String c (String d _))) =>
      if ((Ascii.eqb a "1" && Ascii.eqb b "9") || (Ascii.eqb a "2" && Ascii.eqb b "0"))
         && is_digit c && is_digit d
      then Some (1000 * digit_val a + 100 * digit_val b + 10 * digit_val c + digit_val d)%Z
      else None
  | _ => None
  end.

Fixpoint search_year (s : string) : option Z :=
  match s with
  | EmptyString => None
  | String _ r => match year_at s with Some y => Some y | None => search_year r end
  end.

(** [s.split(sep)] with a one-character separator. *)
Fixpoint split_on (sep : ascii) (s : string) : list string :=
  match s with
  | EmptyString => [EmptyString]
  | String c r =>
      if Ascii.eqb c sep then EmptyString :: split_on sep r
      else match split_on sep r with
           | x :: xs => String c x :: xs
           | [] => [String c EmptyString]
           end
  end.

Definition nonempty (s : string) : bool := negb (String.eqb s EmptyString).

(** ** [extract_pubmed_metadata] (app.py lines 13-90)

    The INDRA client is the environment: either its import fails, or
    [get_metadata_for_ids([str(pmid)], ...)] raises or returns a value. *)

Inductive fetch_outcome : Type :=
| FetchRaises (msg : string)
| FetchReturns (raw : pyval).

Inductive indra_client : Type :=
| IndraImportFails (msg : string)
| IndraLoaded (get_metadata_for_ids : string -> fetch_outcome).

Definition error_dict (msg : string) : pydict := [("error", PyStr msg)].

(** The dictionary returned at lines 81-90. *)
Definition pubmed_dict (title doi : pyval) (abstract : string) (first_author : pyval)
    (pmid : string) (year : option Z) (homepage : string) (keywords : list string) : pydict :=
  [("title", title); ("doi", doi); ("abstract", PyStr abstract);
   ("first_author", first_author); ("pmid", PyStr pmid);
   ("year", match year with Some y => PyInt y | None => PyNone end);
   ("homepage", PyStr homepage); ("keywords", PyList (map PyStr keywords))].

(** [a.get(k1) or a.get(k2)], evaluated lazily. *)
Definition get_or (v : pyval) (k1 k2 : string) : res pyval :=
  x <- py_get v k1 ;;
  if truthy x then Ok x else py_get v k2.

(** Lines 33-37. *)
Definition select_item (raw : pyval) (pmid : string) : res pyval :=
  match raw with
  | PyDict d =>
      x <- py_get raw pmid ;;
      if truthy x then Ok x
      else match d with
           | (_, v) :: _ => Ok v
           | [] => Raise (Exn "IndexError" "list index out of range")
           end
  | _ => Ok raw
  end.

(** Lines 44-50. *)
Definition first_author_of (authors : pyval) : res pyval :=
  if truthy authors then
    a0 <- py_index0 authors ;;
    match a0 with
    | PyDict _ =>
        n <- get_or a0 "name" "fullname" ;;
        Ok (py_or n (PyStr EmptyString))
    | _ => Ok (PyStr (py_str a0))
    end
  else Ok (PyStr EmptyString).

(** Lines 53-63. *)
Definition year_of (item : pyval) : res (option Z) :=
  y <- py_get item "year" ;;
  if truthy y then
    Ok (match py_int y with Ok z => Some z | Raise _ => None end)
  else
    pd <- py_get item "pubdate" ;;
    match py_or pd (PyStr EmptyString) with
    | PyStr s => Ok (search_year s)
    | v => Raise (re_type_error v)
    end.

(** Lines 72-79. *)
Definition keywords_of (item : pyval) : res (list string) :=
  match item with
  | PyDict _ =>
      k1 <- get_or item "keywords" "mesh_terms" ;;
      kw <- (if truthy k1 then Ok k1 else get_or item "keyword" "subject") ;;
      if truthy kw then
        match kw with
        | PyList l => Ok (map (fun x => strip (py_str x)) (filter truthy l))
        | _ => Ok (map strip (filter (fun k => nonempty (strip k)) (split_on "," (py_str kw))))
        end
      else Ok []
  | _ => Ok []
  end.

(** Lines 39-90, for the selected [item]. *)
Definition metadata_of_item (item : pyval) (pmid : string) : res pydict :=
  t <- py_get item "title" ;;
  d <- get_or item "doi" "elocationid" ;;
  a <- py_get item "abstract" ;;
  au <- get_or item "authors" "author_list" ;;
  first_author <- first_author_of (py_or au (PyList [])) ;;
  year <- year_of item ;;
  abstract <- (match py_or a (PyStr EmptyString) with
               | PyStr s => Ok s
               | v => Raise (re_type_error v)
               end) ;;
  let homepage := match find_urls abstract with u :: _ => u | [] => EmptyString end in
  keywords <- keywords_of item ;;
  Ok (pubmed_dict (py_or t (PyStr EmptyString)) (py_or d (PyStr EmptyString))
        abstract first_author pmid year homepage keywords).

Definition extract_pubmed_metadata (indra : indra_client) (pmid : string) : res pydict :=
  match indra with
  | IndraImportFails msg => Ok (error_dict ("INDRA import error: " ++ msg))
  | IndraLoaded get_metadata_for_ids =>
    match get_metadata_for_ids pmid with
    | FetchRaises msg => Ok (error_dict ("PubMed fetch error: " ++ msg))
    | FetchReturns raw =>
      if negb (truthy raw) then Ok (error_dict "No metadata returned from PubMed") else
      item <- select_item raw pmid ;;
      metadata_of_item item pmid
    end
  end.

(** The selected records that lines 39-79 process without raising, as the
    specification describes them by shape: a mapping whose author list (after
    [or]) is empty, a list or a string, whose [pubdate] is read only when it
    is empty or a string, and whose abstract is empty or a string. *)
Definition is_str (v : pyval) : bool := match v with PyStr _ => true | _ => false end.

Definition is_list_or_str (v : pyval) : bool :=
  match v with PyList _ | PyStr _ => true | _ => false end.

Definition item_well_shaped (item : pyval) : bool :=
  match item with
  | PyDict d =>
      let g k := match dict_get d k with Some x => x | None => PyNone end in
      let au := py_or (g "authors") (g "author_list") in
      (negb (truthy au) || is_list_or_str au)
      && (truthy (g "year") || negb (truthy (g "pubdate")) || is_str (g "pubdate"))
      && (negb (truthy (g "abstract")) || is_str (g "abstract"))
  | _ => false
  end.

(** ** The database-info extractor (app.py lines 93-341)

    The browser agent is the environment: it raises, or returns its final
    result text (possibly [None]).  What follows [agent.run()] is pure text
    processing.  The e-mail extraction of lines 287-292 reads and writes
    only the two contact fields; the extractor takes it as the parameters
    [email_search] (the [re.search] group) and [email_remove] (the [re.sub]
    then [.strip()]), whose instances from the source's regular expressions
    are [search_email] and [remove_email] below. *)

Inductive agent_outcome : Type :=
| AgentRaises (e : exn)
| AgentReturns (final : option string).

Record DbInfo := mkDb {
  db_name : string; db_prefix : string; db_description : string;
  db_homepage : string; db_example : string; db_pattern : string;
  db_uri_format : string; db_contact_name : string; db_contact_email : string;
  db_keywords : list string }.

Definition empty_extracted : DbInfo :=
  mkDb EmptyString EmptyString EmptyString EmptyString EmptyString EmptyString
       EmptyString EmptyString EmptyString [].

Definition nl : ascii := ascii_of_nat 10.

(** [text.replace('\\n', '\n')]: backslash then [n] becomes a newline. *)
Fixpoint unescape_newlines (s : string) : string :=
  match s with
  | String c (String d r as s') =>
      if Ascii.eqb c "\" && Ascii.eqb d "n" then String nl (unescape_newlines r)
      else String c (unescape_newlines s')
  | _ => s
  end.

(** [str.splitlines()]: boundaries are \n, \r, \r\n, \v, \f, \x1c-\x1e and
    \x85; a final boundary does not open an empty last line. *)
Definition is_line_break (c : ascii) : bool :=
  let n := code c in
  (n =? 10)%nat || (n =? 11)%nat || (n =? 12)%nat || (n =? 13)%nat
  || ((28 <=? n)%nat && (n <=? 30)%nat) || (n =? 133)%nat.

Fixpoint splitlines_aux (s : string) : string * list string :=
  match s with
  | EmptyString => (EmptyString, [])
  | String c r =>
      let (cur, ls) := splitlines_aux r in
      if is_line_break c then
        if (code c =? 13)%nat && (match r with String d _ => (code d =? 10)%nat | _ => false end)
        then (cur, ls)
        else (EmptyString, cur :: ls)
      else (String c cur, ls)
  end.

Fixpoint drop_last_empty (l : list string) : list string :=
  match l with
  | [] => []
  | [EmptyString] => []
  | x :: r => x :: drop_last_empty r
  end.

Definition splitlines (s : string) : list string :=
  let (cur, ls) := splitlines_aux s in drop_last_empty (cur :: ls).

(** The [re.match] of line 255 on a stripped line [ln], giving
    [(m.group(1).strip(), m.group(2).strip())].  [ln] comes from
    [splitlines] and holds no newline, so group 2 runs to the end of the line;
    group 1 is the text before the first colon (less leading blanks), which
    must be non-empty. *)
Fixpoint split_colon (s : string) : option (string * string) :=
  match s with
  | EmptyString => None
  | String c r =>
      if Ascii.eqb c ":" then Some (EmptyString, r)
      else match split_colon r with
           | Some (a, b) => Some (String c a, b)
           | None => None
           end
  end.

Definition parse_line (ln : string) : option (string * string) :=
  match split_colon ln with
  | Some (EmptyString, _) | None => None
  | Some (pre, post) => Some (strip pre, strip post)
  end.

(** [re.sub(r"[_\-\s]+", "_", raw_label).lower()] *)
Definition is_label_sep (c : ascii) : bool :=
  Ascii.eqb c "_" || Ascii.eqb c "-" || is_space c.

Fixpoint squash_seps (in_run : bool) (s : string) : string :=
  match s with
  | EmptyString => EmptyString
  | String c r =>
      if is_label_sep c then
        if in_run then squash_seps true r else String "_" (squash_seps true r)
      else String c (squash_seps false r)
  end.

Definition label_norm (raw : string) : string := lower (squash_seps false raw).

Fixpoint contains (sub s : string) : bool :=
  String.prefix sub s || match s with EmptyString => false | String _ r => contains sub r end.

(** [val.replace('\\\\', '\\')]: two backslashes become one. *)
Fixpoint unescape_backslashes (s : string) : string :=
  match s with
  | String c (String d r as s') =>
      if Ascii.eqb c "\" && Ascii.eqb d "\" then String "\" (unescape_backslashes r)
      else String c (unescape_backslashes s')
  | _ => s
  end.

(** Line 285. *)
Definition parse_keywords (val : string) : list string :=
  firstn 3 (map strip (filter (fun kw => nonempty (strip kw)) (split_on "," val))).

(** The body of the loop, lines 254-285. *)
Definition update_field (e : DbInfo) (ln : string) : DbInfo :=
  match parse_line ln with
  | None => e
  | Some (raw_label, val) =>
    let l := label_norm raw_label in
    if String.eqb l "name" then {| db_name := val; db_prefix := db_prefix e; db_description := db_description e; db_homepage := db_homepage e; db_example := db_example e; db_pattern := db_pattern e; db_uri_format := db_uri_format e; db_contact_name := db_contact_name e; db_contact_email := db_contact_email e; db_keywords := db_keywords e |}
    else if String.eqb l "prefix" then {| db_name := db_name e; db_prefix := lower val; db_description := db_description e; db_homepage := db_homepage e; db_example := db_example e; db_pattern := db_pattern e; db_uri_format := db_uri_format e; db_contact_name := db_contact_name e; db_contact_email := db_contact_email e; db_keywords := db_keywords e |}
    else if String.eqb l "description" then {| db_name := db_name e; db_prefix := db_prefix e; db_description := val; db_homepage := db_homepage e; db_example := db_example e; db_pattern := db_pattern e; db_uri_format := db_uri_format e; db_contact_name := db_contact_name e; db_contact_email := db_contact_email e; db_keywords := db_keywords e |}
    else if String.eqb l "homepage" then {| db_name := db_name e; db_prefix := db_prefix e; db_description := db_description e; db_homepage := val; db_example := db_example e; db_pattern := db_pattern e; db_uri_format := db_uri_format e; db_contact_name := db_contact_name e; db_contact_email := db_contact_email e; db_keywords := db_keywords e |}
    else if String.eqb l "example" then {| db_name := db_name e; db_prefix := db_prefix e; db_description := db_description e; db_homepage := db_homepage e; db_example := val; db_pattern := db_pattern e; db_uri_format := db_uri_format e; db_contact_name := db_contact_name e; db_contact_email := db_contact_email e; db_keywords := db_keywords e |}
    else if String.eqb l "pattern" then {| db_name := db_name e; db_prefix := db_prefix e; db_description := db_description e; db_homepage := db_homepage e; db_example := db_example e; db_pattern := unescape_backslashes val; db_uri_format := db_uri_format e; db_contact_name := db_contact_name e; db_contact_email := db_contact_email e; db_keywords := db_keywords e |}
    else if contains "uri" l && contains "format" l then {| db_name := db_name e; db_prefix := db_prefix e; db_description := db_description e; db_homepage := db_homepage e; db_example := db_example e; db_pattern := db_pattern e; db_uri_format := val; db_contact_name := db_contact_name e; db_contact_email := db_contact_email e; db_keywords := db_keywords e |}
    else if String.eqb l "contact_name" then {| db_name := db_name e; db_prefix := db_prefix e; db_description := db_description e; db_homepage := db_homepage e; db_example := db_example e; db_pattern := db_pattern e; db_uri_format := db_uri_format e; db_contact_name := val; db_contact_email := db_contact_email e; db_keywords := db_keywords e |}
    else if String.eqb l "contact_email" then {| db_name := db_name e; db_prefix := db_prefix e; db_description := db_description e; db_homepage := db_homepage e; db_example := db_example e; db_pattern := db_pattern e; db_uri_format := db_uri_format e; db_contact_name := db_contact_name e; db_contact_email := val; db_keywords := db_keywords e |}
    else if String.eqb l "keywords" then {| db_name := db_name e; db_prefix := db_prefix e; db_description := db_description e; db_homepage := db_homepage e; db_example := db_example e; db_pattern := db_pattern e; db_uri_format := db_uri_format e; db_contact_name := db_contact_name e; db_contact_email := db_contact_email e; db_keywords := parse_keywords val |}
    else e
  end.

(** Lines 243-285: the fields parsed from the agent's final text. *)
Definition parse_agent_text (final : option string) : DbInfo :=
  let text := unescape_newlines (match final with Some f => f | None => EmptyString end) in
  let lines := filter nonempty (map strip (splitlines text)) in
  fold_left update_field lines empty_extracted.

(** [re.match(r'^[A-Z]+\d+$', example)] and [re.match(r'^\d+$', example)]:
    [$] matches at the end or before a final newline. *)
Definition at_dollar (s : string) : bool :=
  match s with
  | EmptyString => true
  | String c EmptyString => Ascii.eqb c nl
  | _ => false
  end.

Fixpoint digits_then_dollar (seen : bool) (s : string) : bool :=
  match s with
  | EmptyString => seen
  | String c r => if is_digit c then digits_then_dollar true r else seen && at_dollar s
  end.

Fixpoint upper_then_digits (seen : bool) (s : string) : bool :=
  match s with
  | EmptyString => false
  | String c r =>
      if is_upper_az c then upper_then_digits true r
      else seen && digits_then_dollar false s
  end.

(** [re.match(r'^([A-Z]+)', example).group(1)] *)
Fixpoint take_while (p : ascii -> bool) (s : string) : string :=
  match s with
  | EmptyString => EmptyString
  | String c r => if p c then String c (take_while p r) else EmptyString
  end.

(** [len(re.findall(r'\d', example))] *)
Fixpoint count_digits (s : string) : nat :=
  match s with
  | EmptyString => O
  | String c r => if is_digit c then S (count_digits r) else count_digits r
  end.

(** Lines 295-303. *)
Definition infer_pattern (pattern example : string) : string :=
  if negb (nonempty pattern) && nonempty example then
    if upper_then_digits false example then
      "^" ++ take_while is_upper_az example ++ "\d{" ++ nat_to_dec (count_digits example) ++ "}$"
    else if digits_then_dollar false example then
      "^\d{" ++ nat_to_dec (String.length example) ++ "}$"
    else pattern
  else pattern.

(** [s.split()] *)
Definition split_ws (s : string) : list string :=
  let (t, ts) := runs_by is_space s in
  match t with EmptyString => ts | _ => t :: ts end.

Definition first_char (w : string) : string :=
  match w with String c _ => String c EmptyString | EmptyString => EmptyString end.

(** Lines 310-313. *)
Definition derive_prefix (prefix name : string) : string :=
  if negb (nonempty prefix) && nonempty name then
    lower (String.concat EmptyString (map first_char (filter nonempty (split_ws name))))
  else prefix.

(** ** The contact e-mail (app.py lines 287-292)

    [re.search(EMAIL, name)] and
    [re.sub(r'\s*[\(\[]?' EMAIL r'[\)\]]?\s*', '', name).strip()], where
    EMAIL is [[A-Za-z0-9._%+-]+@[A-Za-z0-9.-]+\.[A-Za-z]{2,}].  A matcher
    returns the matched text and the rest of its input, and tries the
    alternatives in the order of Python's backtracking: a [+] or [*] longest
    first, a [?] with its character first.  [{2,}], [[\)\]]?] and the final
    [\s*] are followed by nothing that can fail, so they take the longest
    run directly. *)

(** regex class [[A-Za-z]] *)
Definition is_ascii_letter (c : ascii) : bool :=
  is_upper_az c || (let n := code c in (97 <=? n) && (n <=? 122))%nat.

(** regex class [[A-Za-z0-9._%+-]] *)
Definition is_email_local (c : ascii) : bool :=
  is_alnum_ascii c || Ascii.eqb c "." || Ascii.eqb c "_" || Ascii.eqb c "%"
  || Ascii.eqb c "+" || Ascii.eqb c "-".

(** regex class [[A-Za-z0-9.-]] *)
Definition is_email_domain (c : ascii) : bool :=
  is_alnum_ascii c || Ascii.eqb c "." || Ascii.eqb c "-".

(** The longest prefix of characters satisfying [p], and the rest. *)
Fixpoint span (p : ascii -> bool) (s : string) : string * string :=
  match s with
  | String c r => if p c then let (a, b) := span p r in (String c a, b) else (EmptyString, s)
  | EmptyString => (EmptyString, EmptyString)
  end.

(** [\.[A-Za-z]{2,}] *)
Definition dot_tld (s : string) : option (string * string) :=
  match s with
  | String c r =>
      if Ascii.eqb c "." then
        let (l, rest) := span is_ascii_letter r in
        if (2 <=? String.length l)%nat then Some (String c l, rest) else None
      else None
  | EmptyString => None
  end.

(** [[A-Za-z0-9.-]+\.[A-Za-z]{2,}] *)
Fixpoint domain_tld (s : string) : option (string * string) :=
  match s with
  | String c r =>
      if is_email_domain c then
        match domain_tld r with
        | Some (m, rest) => Some (String c m, rest)
        | None =>
            match dot_tld r with
            | Some (m, rest) => Some (String c m, rest)
            | None => None
            end
        end
      else None
  | EmptyString => None
  end.

(** EMAIL *)
Fixpoint email_at (s : string) : option (string * string) :=
  match s with
  | String c r =>
      if is_email_local c then
        match email_at r with
        | Some (m, rest) => Some (String c m, rest)
        | None =>
            match r with
            | String a r' =>
                if Ascii.eqb a "@" then
                  match domain_tld r' with
                  | Some (m, rest) => Some (String c (String a m), rest)
                  | None => None
                  end
                else None
            | EmptyString => None
            end
        end
      else None
  | EmptyString => None
  end.

(** [m = re.search(EMAIL, s)] and [m.group(1)] *)
Fixpoint search_email (s : string) : option string :=
  match s with
  | EmptyString => None
  | String _ r => match email_at s with Some (m, _) => Some m | None => search_email r end
  end.

(** [[\(\[]?] EMAIL *)
Definition open_email (s : string) : option (string * string) :=
  match s with
  | String c r =>
      if Ascii.eqb c "(" || Ascii.eqb c "[" then
        match email_at r with
        | Some (m, rest) => Some (String c m, rest)
        | None => email_at s
        end
      else email_at s
  | EmptyString => None
  end.

(** [\s*[\(\[]?] EMAIL *)
Fixpoint ws_open_email (s : string) : option (string * string) :=
  match s with
  | String c r =>
      if is_space c then
        match ws_open_email r with
        | Some (m, rest) => Some (String c m, rest)
        | None => open_email s
        end
      else open_email s
  | EmptyString => None
  end.

(** [[\)\]]?\s*] *)
Definition close_ws (s : string) : string * string :=
  let (b, r) :=
    match s with
    | String c r =>
        if Ascii.eqb c ")" || Ascii.eqb c "]" then (String c EmptyString, r)
        else (EmptyString, s)
    | EmptyString => (EmptyString, EmptyString)
    end in
  let (w, rest) := span is_space r in (b ++ w, rest).

(** The length of the match of the whole [re.sub] pattern at the start of [s]. *)
Definition contact_email_match (s : string) : option nat :=
  match ws_open_email s with
  | Some (m, rest) => let (m2, _) := close_ws rest in Some (String.length m + String.length m2)
  | None => None
  end.

(** [re.sub(..., '', s)]: scanning left to right, each match is dropped
    ([skip] counts the characters of the current match still to drop). *)
Fixpoint sub_email_aux (skip : nat) (s : string) : string :=
  match s with
  | EmptyString => EmptyString
  | String c r =>
      match skip with
      | S k => sub_email_aux k r
      | O =>
          match contact_email_match s with
          | Some (S n) => sub_email_aux n r
          | _ => String c (sub_email_aux O r)
          end
      end
  end.

Definition remove_email (name : string) : string := strip (sub_email_aux O name).

(** The shape of a match of EMAIL. *)
Definition email_shaped (m : string) : Prop :=
  exists local dom t, m = local ++ String "@" (dom ++ String "." t)
    /\ local <> EmptyString /\ forall_chars is_email_local local = true
    /\ dom <> EmptyString /\ forall_chars is_email_domain dom = true
    /\ forall_chars is_ascii_letter t = true /\ (2 <= String.length t)%nat.

Section Extractor.

Variable email_search : string -> option string.
Variable email_remove : string -> string.

(** Lines 287-327, after the parsing loop. *)
Definition db_info_of_text (final : option string) (homepage_url : string) : DbInfo :=
  let e := parse_agent_text final in
  let contact :=
    if negb (nonempty (db_contact_email e)) && nonempty (db_contact_name e) then
      match email_search (db_contact_name e) with
      | Some m => (email_remove (db_contact_name e), m)
      | None => (db_contact_name e, db_contact_email e)
      end
    else (db_contact_name e, db_contact_email e) in
  {| db_name := db_name e;
     db_prefix := derive_prefix (db_prefix e) (db_name e);
     db_description := db_description e;
     db_homepage := if nonempty (db_homepage e) then db_homepage e else homepage_url;
     db_example := db_example e;
     db_pattern := infer_pattern (db_pattern e) (db_example e);
     db_uri_format := db_uri_format e;
     db_contact_name := fst contact;
     db_contact_email := snd contact;
     db_keywords := db_keywords e |}.

Definition extract_database_info (agent : string -> agent_outcome) (homepage_url : string)
    : res DbInfo :=
  match agent homepage_url with
  | AgentRaises e => Raise e
  | AgentReturns final => Ok (db_info_of_text final homepage_url)
  end.

End Extractor.

(** ** [format_bioregistry_json] (app.py lines 344-429) *)

Fixpoint strip_lit (lit s : string) : option string :=
  match lit with
  | EmptyString => Some s
  | String a l =>
      match s with
      | String c r => if Ascii.eqb a c then strip_lit l r else None
      | EmptyString => None
      end
  end.

Definition not_slash_dot (c : ascii) : bool := negb (Ascii.eqb c "/" || Ascii.eqb c ".").

(** After [://]: [(?:www\.)?([^/\.]+)], trying [www.] first. *)
Definition label_after_scheme (s : string) : option string :=
  let direct := take_while not_slash_dot s in
  let direct_match := if nonempty direct then Some direct else None in
  match strip_lit "www." s with
  | Some s' =>
      let l := take_while not_slash_dot s' in
      if nonempty l then Some l else direct_match
  | None => direct_match
  end.

(** [https?://] at the start of [s] (after [https], the [s]-less branch
    cannot match). *)
Definition domain_at (s : string) : option string :=
  match strip_lit "https://" s with
  | Some r => label_after_scheme r
  | None =>
      match strip_lit "http://" s with
      | Some r => label_after_scheme r
      | None => None
      end
  end.

(** [re.search(r"https?://(?:www\.)?([^/\.]+)", homepage)], group 1. *)
Fixpoint search_domain (s : string) : option string :=
  match s with
  | EmptyString => None
  | String _ r => match domain_at s with Some l => Some l | None => search_domain r end
  end.

(** [(?i)] on the letters of [v] and [version]. *)
Definition ci_eq (c x : ascii) : bool := Ascii.eqb (lower_char c) x.

Fixpoint strip_lit_ci (lit s : string) : option string :=
  match lit with
  | EmptyString => Some s
  | String a l =>
      match s with
      | String c r => if ci_eq c a then strip_lit_ci l r else None
      | EmptyString => None
      end
  end.

(** [\d+(?:\.\d+)*$]; the text [$] leaves in place ([""] or a final newline). *)
Fixpoint version_digits (seen_digit : bool) (s : string) : option string :=
  match s with
  | EmptyString => if seen_digit then Some EmptyString else None
  | String c r =>
      if is_digit c then version_digits true r
      else if Ascii.eqb c "." then (if seen_digit then version_digits false r else None)
      else if seen_digit && Ascii.eqb c nl && negb (nonempty r) then Some s
      else None
  end.

(** [\s*(?:v|version)\s*\d+(?:\.\d+)*$] matched at the start of [s]. *)
Definition version_at (s : string) : option string :=
  let s1 := lstrip s in
  match strip_lit_ci "v" s1 with
  | Some r =>
      match version_digits false (lstrip r) with
      | Some rest => Some rest
      | None =>
          match strip_lit_ci "version" s1 with
          | Some r' => version_digits false (lstrip r')
          | None => None
          end
      end
  | None => None
  end.

(** [re.sub(r"(?i)\s*(?:v|version)\s*\d+(?:\.\d+)*$", "", name)] *)
Fixpoint strip_version (s : string) : string :=
  match s with
  | EmptyString => EmptyString
  | String c r =>
      match version_at s with
      | Some rest => rest
      | None => String c (strip_version r)
      end
  end.

(** Lines 357-361. *)
Definition key_of_name (name : string) : string :=
  let clean_name := strip (strip_version name) in
  let p := lower (filter_chars is_alnum_ascii clean_name) in
  if nonempty p then p else "database_key".

Definition get_default (d : pydict) (k : string) (default : pyval) : pyval :=
  match dict_get d k with Some v => v | None => default end.

Definition empty_str : pyval := PyStr EmptyString.

(** Lines 347 and 350-354: the resolved name. *)
Definition assembler_name (pubmed : pydict) (db : option DbInfo) : res string :=
  let name0 := strip (match db with Some d => db_name d | None => EmptyString end) in
  if nonempty name0 then Ok name0 else
  let db_home := PyStr (match db with Some d => db_homepage d | None => EmptyString end) in
  match py_or db_home (get_default pubmed "homepage" empty_str) with
  | PyStr h => Ok (match search_domain h with Some l => l | None => "database" end)
  | v => Raise (re_type_error v)
  end.

Definition format_bioregistry_json (pubmed : pydict) (db : option DbInfo) (contributor : pyval)
    : res pyval :=
  let prefix0 := strip (match db with Some d => db_prefix d | None => EmptyString end) in
  let db_home := PyStr (match db with Some d => db_homepage d | None => EmptyString end) in
  name <- assembler_name pubmed db ;;
  let prefix := if nonempty prefix0 then prefix0 else key_of_name name in
  let contact :=
    match db with
    | Some d => PyDict [("email", PyStr (db_contact_email d)); ("name", PyStr (db_contact_name d));
                        ("orcid", empty_str)]
    | None => PyDict [("email", empty_str); ("name", empty_str); ("orcid", empty_str)]
    end in
  let contributor_info :=
    match contributor with
    | PyDict c =>
        if truthy contributor then
          PyDict [("email", py_or (get_default c "email" empty_str) empty_str);
                  ("github", py_or (get_default c "github" empty_str) empty_str);
                  ("name", py_or (get_default c "name" empty_str) empty_str);
                  ("orcid", py_or (get_default c "orcid" empty_str) empty_str)]
        else PyDict [("email", empty_str); ("github", empty_str); ("name", empty_str); ("orcid", empty_str)]
    | _ => PyDict [("email", empty_str); ("github", empty_str); ("name", empty_str); ("orcid", empty_str)]
    end in
  let field (f : DbInfo -> string) := PyStr (match db with Some d => f d | None => EmptyString end) in
  let homepage := py_or db_home (get_default pubmed "homepage" empty_str) in
  let pm_kw := get_default pubmed "keywords" PyNone in
  let keywords :=
    if truthy (PyDict pubmed) && truthy pm_kw then pm_kw
    else match db with
         | Some d => match db_keywords d with [] => PyList [] | l => PyList (map PyStr l) end
         | None => PyList []
         end in
  let publications :=
    if truthy (PyDict pubmed) then
      [PyDict [("doi", py_or (get_default pubmed "doi" PyNone) empty_str);
               ("pubmed", py_or (get_default pubmed "pmid" PyNone) empty_str);
               ("title", py_or (get_default pubmed "title" PyNone) empty_str);
               ("year", py_or (get_default pubmed "year" PyNone) PyNone)]]
    else [] in
  Ok (PyDict [(prefix, PyDict
    [("contact", contact); ("contributor", contributor_info);
     ("description", field db_description); ("example", field db_example);
     ("github_request_issue", empty_str); ("homepage", homepage);
     ("keywords", keywords); ("name", PyStr name); ("pattern", field db_pattern);
     ("publications", PyList publications); ("uri_format", field db_uri_format)])]).

(** The homepage text searched for a domain label at line 353, when the
    [homepage] entry of [pubmed] is absent or a string. *)
Definition assembler_homepage (pubmed : pydict) (db : option DbInfo) : string :=
  let h := match db with Some d => db_homepage d | None => EmptyString end in
  if nonempty h then h
  else match dict_get pubmed "homepage" with Some (PyStr s) => s | _ => EmptyString end.

(** Lower-case ASCII letters and digits. *)
Definition is_lower_alnum (c : ascii) : bool :=
  is_digit c || (let n := code c in (97 <=? n) && (n <=? 122))%nat.

(** ** The [/extract] endpoint (app.py lines 437-500)

    A response is a status code and a JSON body.  [Raise] from [extract] is
    an exception that escapes the view function (Flask then answers with its
    own 500 page). *)

Record response := mkResponse { status_code : Z; body : pyval }.

Definition error_body (message : pyval) : pyval :=
  PyDict [("status", PyStr "error"); ("message", message)].

Definition invalid_pmid_message : string :=
  "Invalid PMID. Provide numeric PMID like 12345678.".

Definition no_url_message : string :=
  "No homepage URL found in the PubMed abstract; cannot run browser-use scraping.".

Definition invalid_pmid_response : response :=
  mkResponse 400 (error_body (PyStr invalid_pmid_message)).

(** [v[:50]] *)
Definition py_slice50 (v : pyval) : res pyval :=
  match v with
  | PyStr s => Ok (PyStr (substring 0 50 s))
  | PyList l => Ok (PyList (firstn 50 l))
  | PyDict _ => Raise (Exn "KeyError" "slice(None, 50, None)")
  | _ => Raise (not_subscriptable v)
  end.

(** [re.fullmatch(r"\d+", pmid)] *)
Definition fullmatch_digits (s : string) : bool := nonempty s && forall_chars is_digit s.

Section Endpoint.

Variable email_search : string -> option string.
Variable email_remove : string -> string.

(** The body of the [try] block, lines 447-496. *)
Definition run_pipeline (indra : indra_client) (agent : string -> agent_outcome)
    (pmid : string) (contributor : pyval) : res response :=
  pubmed <- extract_pubmed_metadata indra pmid ;;
  let err := get_default pubmed "error" PyNone in
  if truthy err then Ok (mkResponse 500 (error_body err)) else
  _ <- py_slice50 (get_default pubmed "title" (PyStr "N/A")) ;;
  abstract_text <- (match py_or (get_default pubmed "abstract" PyNone) empty_str with
                    | PyStr a => Ok a
                    | v => Raise (re_type_error v)
                    end) ;;
  match find_urls abstract_text with
  | [] =>
      bioreg_partial <- format_bioregistry_json pubmed None contributor ;;
      Ok (mkResponse 400 (PyDict [("status", PyStr "error"); ("message", PyStr no_url_message);
                                  ("data", bioreg_partial)]))
  | homepage_url :: _ =>
      match extract_database_info email_search email_remove agent homepage_url with
      | Raise e =>
          bioreg_partial <- format_bioregistry_json pubmed None contributor ;;
          Ok (mkResponse 500 (PyDict [("status", PyStr "error");
                                      ("message", PyStr ("Database scraping failed: " ++ exn_msg e));
                                      ("data", bioreg_partial)]))
      | Ok db_data =>
          bioreg <- format_bioregistry_json pubmed (Some db_data) contributor ;;
          Ok (mkResponse 200 (PyDict [("status", PyStr "success"); ("data", bioreg)]))
      end
  end.

(** [data = request.get_json() or {}] and the validation of lines 439-444;
    [Accept pmid contributor] lets the pipeline run. *)
Inductive validation := Reject | Accept (pmid : string) (contributor : pyval).

Definition validate (body : pyval) : res validation :=
  let data := py_or body (PyDict []) in
  p <- py_get data "pmid" ;;
  pmid <- (match py_or p empty_str with
           | PyStr s => Ok (strip s)
           | v => Raise (attr_error v "strip")
           end) ;;
  c <- py_get data "contributor" ;;
  if negb (nonempty pmid) || negb (fullmatch_digits pmid) then Ok Reject
  else Ok (Accept pmid (py_or c (PyDict []))).

Definition extract (indra : indra_client) (agent : string -> agent_outcome) (body : pyval)
    : res response :=
  v <- validate body ;;
  match v with
  | Reject => Ok invalid_pmid_response
  | Accept pmid contributor =>
      match run_pipeline indra agent pmid contributor with
      | Ok r => Ok r
      | Raise e => Ok (mkResponse 500 (error_body (PyStr (exn_msg e))))
      end
  end.

End Endpoint.

(** ** Sample environments *)

(** An [email_search] that finds nothing and an [email_remove] that keeps
    the name. *)
Definition no_email : string -> option string := fun _ => None.
Definition keep_name : string -> string := fun s => s.

(** An agent that returns no final text. *)
Definition silent_agent : string -> agent_outcome := fun _ => AgentReturns None.

(** A client whose record for PMID 1 has five keywords. *)
Definition five_keyword_client : indra_client :=
  IndraLoaded (fun _ => FetchReturns (PyDict [("1", PyDict
    [("title", PyStr "T");
     ("keywords", PyList [PyStr "a"; PyStr "b"; PyStr "c"; PyStr "d"; PyStr "e"])])])).

(** ** First and last characters *)

Fixpoint ends_with (p : ascii -> bool) (s : string) : bool :=
  match s with
  | EmptyString => false
  | String c r => match r with EmptyString => p c | _ => ends_with p r end
  end.

Definition starts_with (p : ascii -> bool) (s : string) : bool :=
  match s with EmptyString => false | String c _ => p c end.

(** * Proofs *)

Lemma lit_then_nonstop_runs (lit s : string) :
  forall_chars (fun c => negb (is_url_stop c)) lit = true ->
  lit_then_nonstop lit s = lit_then_more lit (fst (runs_aux s)).
Proof.
  unfold runs_aux.
  revert s; induction lit as [|a l IH]; intros s Hl; destruct s as [|c r].
  - reflexivity.
  - unfold lit_then_more; simpl. destruct (runs_by is_url_stop r) as [t ts].
    destruct (is_url_stop c); reflexivity.
  - reflexivity.
  - simpl in Hl. apply andb_prop in Hl as [Ha Hl].
    unfold lit_then_more; simpl. rewrite (IH r Hl).
    destruct (runs_by is_url_stop r) as [t ts] eqn:Er.
    destruct (is_url_stop c) eqn:Ec; simpl.
    + destruct (Ascii.eqb_spec a c) as [->|Hne].
      * rewrite Ec in Ha; discriminate.
      * reflexivity.
    + unfold lit_then_more. simpl.
      destruct (ascii_dec a c) as [->|Hne].
      * rewrite Ascii.eqb_refl. reflexivity.
      * apply Ascii.eqb_neq in Hne. rewrite Hne. reflexivity.
Qed.

Lemma sappend_nil_r (s : string) : s ++ EmptyString = s.
Proof. induction s as [|c r IH]; simpl; [reflexivity | now rewrite IH]. Qed.

Lemma sappend_assoc (a b c : string) : (a ++ b) ++ c = a ++ (b ++ c).
Proof. induction a as [|x r IH]; simpl; [reflexivity | now rewrite IH]. Qed.

Lemma url_starts_runs (s : string) :
  url_starts s = lit_then_more "https://" (fst (runs_aux s))
                 || lit_then_more "http://" (fst (runs_aux s)).
Proof.
  unfold url_starts.
  rewrite !lit_then_nonstop_runs by reflexivity. reflexivity.
Qed.

Lemma findall_urls_runs (s : string) :
  findall_urls None s
    = (url_of_run (fst (runs_aux s)) ++ flat_map url_of_run (snd (runs_aux s)))%list
  /\ (forall acc, findall_urls (Some acc) s
        = (acc ++ fst (runs_aux s)) :: flat_map url_of_run (snd (runs_aux s))).
Proof.
  unfold runs_aux.
  induction s as [|c r [IHn IHs]].
  - split; [reflexivity|]. intros acc; simpl. now rewrite sappend_nil_r.
  - pose proof (url_starts_runs (String c r)) as Hst.
    unfold runs_aux in Hst. simpl in Hst |- *. destruct (runs_by is_url_stop r) as [t ts] eqn:Er. simpl in IHn, IHs.
    destruct (is_url_stop c) eqn:Ec; simpl in Hst |- *.
    + rewrite Hst. split.
      * rewrite IHn. destruct t; reflexivity.
      * intros acc. rewrite sappend_nil_r, IHn. destruct t; reflexivity.
    + split.
      * rewrite Hst. unfold url_of_run at 1. simpl.
        destruct (lit_then_more "https://" (String c t)
                  || lit_then_more "http://" (String c t)).
        -- rewrite IHs. reflexivity.
        -- exact IHn.
      * intros acc. rewrite IHs, sappend_assoc. reflexivity.
Qed.

Lemma find_urls_spec (text : string) : find_urls text = spec_urls text.
Proof.
  unfold find_urls, spec_urls, runs.
  destruct (findall_urls_runs text) as [H _]. rewrite H.
  unfold runs_aux. destruct (runs_by is_url_stop text) as [t ts]. simpl.
  destruct t; reflexivity.
Qed.

(** ** Strings: stripping *)

Lemma ends_with_snoc (p : ascii -> bool) (x : string) (c : ascii) :
  ends_with p (x ++ String c EmptyString) = p c.
Proof.
  induction x as [|a x IH]; simpl; [reflexivity|].
  rewrite IH. destruct x; reflexivity.
Qed.

Lemma ends_with_rev (p : ascii -> bool) (t : string) :
  ends_with p (rev_string t) = starts_with p t.
Proof. destruct t as [|c r]; simpl; [reflexivity | apply ends_with_snoc]. Qed.

Lemma lstrip_head (s : string) : starts_with is_space (lstrip s) = false.
Proof.
  induction s as [|c r IH]; simpl; [reflexivity|].
  destruct (is_space c) eqn:E; simpl; auto.
Qed.

Lemma strip_not_ends_space (s : string) : ends_with is_space (strip s) = false.
Proof. unfold strip, rstrip. rewrite ends_with_rev. apply lstrip_head. Qed.

(** ** The agent-text parser *)

Lemma parse_line_val (ln raw v : string) :
  parse_line ln = Some (raw, v) -> exists post, v = strip post.
Proof.
  unfold parse_line. destruct (split_colon ln) as [[pre post]|]; [|discriminate].
  destruct pre; [discriminate|]. intros H; inversion H; eauto.
Qed.

Lemma parse_keywords_length (v : string) : (length (parse_keywords v) <= 3)%nat.
Proof. unfold parse_keywords. rewrite length_firstn. lia. Qed.

(** Case analysis on one step of the parsing loop. *)
Ltac update_cases :=
  unfold update_field;
  match goal with
  | |- context [parse_line ?ln] =>
      let raw := fresh "raw" in let v := fresh "v" in let E := fresh "E" in
      destruct (parse_line ln) as [[raw v]|] eqn:E; [|assumption]
  end;
  repeat match goal with
  | |- context [if ?b then _ else _] => destruct b
  end; simpl; auto.

Lemma fold_update_keywords (lines : list string) (e : DbInfo) :
  (length (db_keywords e) <= 3)%nat ->
  (length (db_keywords (fold_left update_field lines e)) <= 3)%nat.
Proof.
  revert e; induction lines as [|ln r IH]; intros e He; simpl; [assumption|].
  apply IH. update_cases; apply parse_keywords_length.
Qed.

Lemma fold_update_example (lines : list string) (e : DbInfo) :
  ends_with is_space (db_example e) = false ->
  ends_with is_space (db_example (fold_left update_field lines e)) = false.
Proof.
  revert e; induction lines as [|ln r IH]; intros e He; simpl; [assumption|].
  apply IH. update_cases.
  destruct (parse_line_val _ _ _ E) as [post ->]. apply strip_not_ends_space.
Qed.

Lemma parsed_example_no_trailing_space (final : option string) :
  ends_with is_space (db_example (parse_agent_text final)) = false.
Proof. unfold parse_agent_text. apply fold_update_example. reflexivity. Qed.

(** ** Pattern inference *)

Lemma digit_not_upper (c : ascii) : is_digit c = true -> is_upper_az c = false.
Proof.
  unfold is_digit, is_upper_az. intros H.
  apply andb_prop in H as [H1 H2]. apply Nat.leb_le in H1, H2.
  destruct (65 <=? code c)%nat eqn:E1; simpl; [|reflexivity].
  apply Nat.leb_le in E1. lia.
Qed.

Lemma digits_then_dollar_digits (D : string) (seen : bool) :
  forall_chars is_digit D = true -> digits_then_dollar seen D = seen || nonempty D.
Proof.
  revert seen; induction D as [|c r IH]; intros seen H; simpl in *.
  - now rewrite orb_false_r.
  - apply andb_prop in H as [Hc Hr]. rewrite Hc, IH by assumption.
    now rewrite orb_true_r.
Qed.

Lemma upper_then_digits_shape (L D : string) (seen : bool) :
  forall_chars is_upper_az L = true -> D <> EmptyString -> forall_chars is_digit D = true ->
  upper_then_digits seen (L ++ D) = seen || nonempty L.
Proof.
  revert seen; induction L as [|a l IH]; intros seen HL HD HDd; simpl in *.
  - destruct D as [|c r]; [congruence|]. simpl in HDd |- *.
    apply andb_prop in HDd as [Hc Hr].
    rewrite (digit_not_upper c Hc), Hc, digits_then_dollar_digits by assumption.
    simpl. now rewrite !orb_false_r, andb_true_r.
  - apply andb_prop in HL as [Ha Hl]. rewrite Ha, IH by assumption.
    now rewrite orb_true_r.
Qed.

Lemma take_upper_shape (L D : string) :
  forall_chars is_upper_az L = true -> D <> EmptyString -> forall_chars is_digit D = true ->
  take_while is_upper_az (L ++ D) = L.
Proof.
  induction L as [|a l IH]; intros HL HD HDd; simpl in *.
  - destruct D as [|c r]; [congruence|]. simpl in HDd |- *.
    apply andb_prop in HDd as [Hc _]. now rewrite (digit_not_upper c Hc).
  - apply andb_prop in HL as [Ha Hl]. rewrite Ha, IH; auto.
Qed.

Lemma count_digits_shape (L D : string) :
  forall_chars is_upper_az L = true -> forall_chars is_digit D = true ->
  count_digits (L ++ D) = String.length D.
Proof.
  induction L as [|a l IH]; intros HL HD; simpl in *.
  - induction D as [|c r IHD]; simpl in *; [reflexivity|].
    apply andb_prop in HD as [Hc Hr]. rewrite Hc, IHD; auto.
  - apply andb_prop in HL as [Ha Hl].
    destruct (is_digit a) eqn:Ed.
    + rewrite (digit_not_upper a Ed) in Ha. discriminate.
    + auto.
Qed.

Lemma ends_with_cons (p : ascii -> bool) (c : ascii) (r : string) :
  r <> EmptyString -> ends_with p (String c r) = ends_with p r.
Proof. destruct r; [congruence | reflexivity]. Qed.

Lemma digits_then_dollar_inv (s : string) (seen : bool) :
  digits_then_dollar seen s = true -> ends_with is_space s = false ->
  forall_chars is_digit s = true /\ (seen = true \/ s <> EmptyString).
Proof.
  revert seen; induction s as [|c r IH]; intros seen H Hend; simpl in *.
  - auto.
  - destruct (is_digit c) eqn:Ec.
    + assert (Hr : ends_with is_space r = false).
      { destruct r; [reflexivity | exact Hend]. }
      destruct (IH true H Hr) as [Hd _]. simpl. rewrite Hd.
      split; [reflexivity | right; congruence].
    + apply andb_prop in H as [_ Hd]. unfold at_dollar in Hd.
      destruct r; [|discriminate].
      apply Ascii.eqb_eq in Hd. subst c. discriminate.
Qed.

Lemma upper_then_digits_inv (s : string) (seen : bool) :
  upper_then_digits seen s = true -> ends_with is_space s = false ->
  exists L D, s = L ++ D /\ (seen = true \/ L <> EmptyString)
    /\ forall_chars is_upper_az L = true /\ D <> EmptyString /\ forall_chars is_digit D = true.
Proof.
  revert seen; induction s as [|c r IH]; intros seen H Hend; simpl in H; [discriminate|].
  destruct (is_upper_az c) eqn:Ec.
  - destruct r as [|c' r']; [discriminate|].
    rewrite ends_with_cons in Hend by discriminate.
    destruct (IH true H Hend) as (L & D & -> & _ & HL & HD & HDd).
    exists (String c L), D. simpl. rewrite Ec, HL.
    repeat split; auto. right; discriminate.
  - apply andb_prop in H as [Hs Hd]. subst seen.
    change (digits_then_dollar false (String c r) = true) in Hd.
    destruct (digits_then_dollar_inv _ _ Hd Hend) as [Hdig _].
    exists EmptyString, (String c r). repeat split; auto. discriminate.
Qed.

(** ** Prefix derivation *)

Lemma runs_by_later_nonempty (p : ascii -> bool) (s : string) :
  Forall (fun w => w <> EmptyString) (snd (runs_by p s)).
Proof.
  induction s as [|c r IH]; simpl; [constructor|].
  destruct (runs_by p r) as [t ts]. simpl in IH.
  destruct (p c); simpl; [|exact IH].
  destruct t; [exact IH|]. constructor; [discriminate | exact IH].
Qed.

Lemma split_ws_nonempty (s : string) : Forall (fun w => w <> EmptyString) (split_ws s).
Proof.
  unfold split_ws. pose proof (runs_by_later_nonempty is_space s) as H.
  destruct (runs_by is_space s) as [t ts]. simpl in H.
  destruct t; [exact H|]. constructor; [discriminate | exact H].
Qed.

Lemma filter_nonempty_id (l : list string) :
  Forall (fun w => w <> EmptyString) l -> filter nonempty l = l.
Proof.
  induction 1 as [|w r Hw _ IH]; simpl; [reflexivity|].
  destruct w; [congruence|]. simpl. now rewrite IH.
Qed.

Lemma lower_app (a b : string) : lower (a ++ b) = lower a ++ lower b.
Proof. induction a as [|c r IH]; simpl; [reflexivity | now rewrite IH]. Qed.

Lemma lower_concat (l : list string) :
  lower (String.concat EmptyString l) = String.concat EmptyString (map lower l).
Proof.
  induction l as [|x r IH]; [reflexivity|].
  destruct r as [|y r']; simpl; [reflexivity|].
  rewrite lower_app. simpl in IH. now rewrite IH.
Qed.

(** ** The assembler: name and key *)

Lemma lower_alnum_char (c : ascii) :
  implb (is_alnum_ascii c) (is_lower_alnum (lower_char c)) = true.
Proof. destruct c as [[] [] [] [] [] [] [] []]; reflexivity. Qed.

Lemma lower_filter_alnum (s : string) :
  forall_chars is_lower_alnum (lower (filter_chars is_alnum_ascii s)) = true.
Proof.
  induction s as [|c r IH]; cbn [filter_chars lower forall_chars]; [reflexivity|].
  pose proof (lower_alnum_char c) as H.
  destruct (is_alnum_ascii c); [|exact IH].
  cbn [implb] in H. cbn [lower forall_chars]. rewrite H, IH. reflexivity.
Qed.

Lemma key_of_name_shape (name : string) :
  key_of_name name = "database_key"
  \/ (nonempty (key_of_name name) = true
      /\ forall_chars is_lower_alnum (key_of_name name) = true).
Proof.
  unfold key_of_name; cbv zeta.
  destruct (nonempty (lower (filter_chars is_alnum_ascii (strip (strip_version name))))) eqn:E.
  - right. split; [exact E | apply lower_filter_alnum].
  - left. reflexivity.
Qed.

Lemma take_while_all (p : ascii -> bool) (s : string) :
  forall_chars p (take_while p s) = true.
Proof.
  induction s as [|c r IH]; cbn [take_while]; [reflexivity|].
  destruct (p c) eqn:E; cbn [forall_chars]; [rewrite E, IH|]; reflexivity.
Qed.

Lemma label_after_scheme_shape (s l : string) :
  label_after_scheme s = Some l ->
  nonempty l = true /\ forall_chars not_slash_dot l = true.
Proof.
  unfold label_after_scheme; cbv zeta.
  destruct (strip_lit "www." s) as [s'|];
    repeat (match goal with |- context [nonempty ?t] => destruct (nonempty t) eqn:? end);
    intros H; try discriminate H; try congruence;
    injection H as <-; split; auto using take_while_all.
Qed.

Lemma domain_at_shape (s l : string) :
  domain_at s = Some l -> nonempty l = true /\ forall_chars not_slash_dot l = true.
Proof.
  unfold domain_at.
  destruct (strip_lit "https://" s); [apply label_after_scheme_shape|].
  destruct (strip_lit "http://" s); [apply label_after_scheme_shape | discriminate].
Qed.

Lemma search_domain_shape (s l : string) :
  search_domain s = Some l -> nonempty l = true /\ forall_chars not_slash_dot l = true.
Proof.
  induction s as [|c r IH]; cbn [search_domain]; [discriminate|].
  destruct (domain_at (String c r)) eqn:E; [|exact IH].
  intros H; injection H as <-. exact (domain_at_shape _ _ E).
Qed.

Lemma assembler_name_ok (pubmed : pydict) (db : option DbInfo)
  (Hhome : forall v, dict_get pubmed "homepage" = Some v -> exists h, v = PyStr h) :
  exists name, assembler_name pubmed db = Ok name
    /\ (if nonempty (strip (match db with Some d => db_name d | None => EmptyString end))
        then name = strip (match db with Some d => db_name d | None => EmptyString end)
        else match search_domain (assembler_homepage pubmed db) with
             | Some l => name = l /\ nonempty l = true /\ forall_chars not_slash_dot l = true
             | None => name = "database"
             end).
Proof.
  unfold assembler_name, assembler_homepage; cbv zeta.
  destruct (nonempty (strip _)) eqn:En; [eexists; split; reflexivity|].
  set (h := match db with Some d => db_homepage d | None => EmptyString end).
  assert (Hh : py_or (PyStr h) (get_default pubmed "homepage" empty_str)
               = PyStr (if nonempty h then h
                        else match dict_get pubmed "homepage" with
                             | Some (PyStr s) => s | _ => EmptyString end)).
  { unfold py_or, truthy, nonempty. destruct (String.eqb h EmptyString); [|reflexivity].
    unfold get_default. destruct (dict_get pubmed "homepage") as [v|] eqn:Ed; [|reflexivity].
    destruct (Hhome v eq_refl) as [s ->]. unfold empty_str.
    simpl. destruct (String.eqb s EmptyString) eqn:Es; [|reflexivity].
    apply String.eqb_eq in Es. subst s. reflexivity. }
  rewrite Hh.
  destruct (search_domain _) as [l|] eqn:Es; eexists; (split; [reflexivity|]); [|reflexivity].
  split; [reflexivity | exact (search_domain_shape _ _ Es)].
Qed.

Lemma pubmed_dict_home (title doi : pyval) (abstract : string) (first_author : pyval)
    (pmid : string) (year : option Z) (homepage : string) (keywords : list string) :
  forall v, dict_get (pubmed_dict title doi abstract first_author pmid year homepage keywords)
              "homepage" = Some v -> exists h, v = PyStr h.
Proof. intros v H. cbn in H. injection H as <-. eexists; reflexivity. Qed.

(** ** PubMed metadata *)

Lemma select_item_ok (raw : pyval) (pmid : string) :
  truthy raw = true -> exists item, select_item raw pmid = Ok item.
Proof.
  intros Hr. destruct raw as [| | | | |d]; try (eexists; reflexivity).
  cbn [select_item py_get bind].
  match goal with |- context [if truthy ?x then _ else _] => destruct (truthy x) end;
    [eexists; reflexivity|].
  destruct d as [|[k v] d]; [discriminate | eexists; reflexivity].
Qed.

Lemma get_or_dict (d : pydict) (k1 k2 : string) :
  get_or (PyDict d) k1 k2
  = Ok (py_or (match dict_get d k1 with Some x => x | None => PyNone end)
              (match dict_get d k2 with Some x => x | None => PyNone end)).
Proof. unfold get_or, py_or. cbn [py_get bind]. destruct (truthy _); reflexivity. Qed.

Lemma first_author_of_spec (v : pyval) :
  match first_author_of v with
  | Ok _ => (negb (truthy v) || is_list_or_str v) = true
  | Raise _ => (negb (truthy v) || is_list_or_str v) = false
  end.
Proof.
  destruct v as [| [] | z | [|c r] | [|x l] | [|kv d]]; unfold first_author_of;
    cbn [truthy negb orb is_list_or_str py_index0 bind]; try reflexivity.
  - destruct (Z.eqb z 0); reflexivity.
  - destruct x as [| | | | |d]; try reflexivity.
    rewrite get_or_dict. reflexivity.
Qed.

Lemma author_cond_or (au : pyval) :
  (negb (truthy (py_or au (PyList []))) || is_list_or_str (py_or au (PyList [])))
  = (negb (truthy au) || is_list_or_str au).
Proof. unfold py_or. destruct (truthy au) eqn:E; rewrite ?E; reflexivity. Qed.

Lemma year_of_spec (d : pydict) :
  let g k := match dict_get d k with Some x => x | None => PyNone end in
  match year_of (PyDict d) with
  | Ok _ => (truthy (g "year") || negb (truthy (g "pubdate")) || is_str (g "pubdate")) = true
  | Raise _ => (truthy (g "year") || negb (truthy (g "pubdate")) || is_str (g "pubdate")) = false
  end.
Proof.
  intros g. unfold year_of. cbn [py_get bind]. fold (g "year"). fold (g "pubdate").
  destruct (truthy (g "year")); [reflexivity|]. cbn [orb].
  unfold py_or. destruct (g "pubdate") as [| [] | z | [|c r] | [|x l] | [|kv d']];
    simpl; try reflexivity.
  destruct (Z.eqb z 0); reflexivity.
Qed.

Lemma keywords_of_ok (item : pyval) : exists k, keywords_of item = Ok k.
Proof.
  destruct item as [| | | | |d]; try (eexists; reflexivity).
  unfold keywords_of. rewrite get_or_dict. cbn [bind].
  destruct (truthy (py_or _ _)); [|rewrite get_or_dict]; cbn [bind];
    match goal with |- context [if truthy ?kw then _ else _] =>
      destruct (truthy kw); [destruct kw|] end;
    eexists; reflexivity.
Qed.

Lemma metadata_of_item_spec (item : pyval) (pmid : string) :
  match metadata_of_item item pmid with
  | Ok r =>
      item_well_shaped item = true
      /\ exists title doi abstract first_author year homepage keywords,
           r = pubmed_dict title doi abstract first_author pmid year homepage keywords
           /\ homepage = match find_urls abstract with u :: _ => u | [] => EmptyString end
  | Raise _ => item_well_shaped item = false
  end.
Proof.
  destruct item as [| | | | |d]; try reflexivity.
  unfold metadata_of_item. cbn [py_get bind]. rewrite !get_or_dict. cbn [bind].
  unfold item_well_shaped. cbv beta zeta.
  pose proof (first_author_of_spec
    (py_or (py_or (match dict_get d "authors" with Some x => x | None => PyNone end)
                  (match dict_get d "author_list" with Some x => x | None => PyNone end))
           (PyList []))) as Hfa.
  rewrite author_cond_or in Hfa.
  destruct (first_author_of _) as [fa|e]; cbn [bind]; [|rewrite Hfa; reflexivity].
  pose proof (year_of_spec d) as Hy. cbv beta zeta in Hy.
  destruct (year_of (PyDict d)) as [y|e]; cbn [bind];
    [|rewrite Hy, andb_false_r; reflexivity].
  rewrite Hfa, Hy. cbn [andb].
  destruct (keywords_of_ok (PyDict d)) as [k Hk].
  destruct (match dict_get d "abstract" with Some x => x | None => PyNone end)
    as [| [] | z | [|c r] | [|x l] | [|kv d']];
    cbn [py_or truthy negb orb is_str bind String.eqb];
    try (unfold py_or; cbn [truthy]; destruct (Z.eqb z 0); cbn [negb orb bind]);
    try reflexivity;
    rewrite Hk; cbn [bind];
    (split; [reflexivity|]); do 7 eexists; split; reflexivity.
Qed.

Lemma extract_pubmed_metadata_ok_shape (indra : indra_client) (pmid : string) (r : pydict) :
  extract_pubmed_metadata indra pmid = Ok r ->
  (exists msg, r = error_dict msg /\ nonempty msg = true)
  \/ (exists title doi abstract first_author year homepage keywords,
        r = pubmed_dict title doi abstract first_author pmid year homepage keywords).
Proof.
  destruct indra as [msg|get]; cbn [extract_pubmed_metadata].
  - intros H; injection H as <-. left. eexists; split; reflexivity.
  - destruct (get pmid) as [msg|raw].
    + intros H; injection H as <-. left. eexists; split; reflexivity.
    + destruct (negb (truthy raw)).
      * intros H; injection H as <-. left. eexists; split; reflexivity.
      * destruct (select_item raw pmid) as [item|e]; cbn [bind]; [|discriminate].
        intros H. pose proof (metadata_of_item_spec item pmid) as Hs. rewrite H in Hs.
        destruct Hs as [_ (t & d & a & fa & y & h & k & -> & _)].
        right. do 7 eexists. reflexivity.
Qed.

(** ** The endpoint *)

Lemma format_pubmed_dict_ok (title doi : pyval) (abstract : string) (first_author : pyval)
    (pmid : string) (year : option Z) (homepage : string) (keywords : list string)
    (db : option DbInfo) (contributor : pyval) :
  exists out, format_bioregistry_json
                (pubmed_dict title doi abstract first_author pmid year homepage keywords)
                db contributor = Ok out.
Proof.
  destruct (assembler_name_ok
              (pubmed_dict title doi abstract first_author pmid year homepage keywords) db
              (pubmed_dict_home title doi abstract first_author pmid year homepage keywords))
    as [name [Hn _]].
  unfold format_bioregistry_json; cbv zeta. rewrite Hn. eexists; reflexivity.
Qed.

Lemma py_or_str_empty (a : string) : py_or (PyStr a) empty_str = PyStr a.
Proof.
  unfold py_or, truthy. destruct (String.eqb_spec a EmptyString) as [->|_]; reflexivity.
Qed.

Section Endpoint_facts.

Variable email_search : string -> option string.
Variable email_remove : string -> string.

Lemma run_pipeline_not_invalid (indra : indra_client) (agent : string -> agent_outcome)
    (pmid : string) (contributor : pyval) (r : response) :
  run_pipeline email_search email_remove indra agent pmid contributor = Ok r ->
  r <> invalid_pmid_response.
Proof.
  unfold run_pipeline. intros H ->.
  destruct (extract_pubmed_metadata indra pmid) as [pm|e]; cbn [bind] in H; [|discriminate H].
  destruct (truthy (get_default pm "error" PyNone)); [discriminate H|].
  destruct (py_slice50 _); cbn [bind] in H; [|discriminate H].
  destruct (py_or (get_default pm "abstract" PyNone) empty_str) as [|b|z|abs|l|d];
    cbn [bind] in H; try discriminate H.
  destruct (find_urls abs) as [|u us].
  - destruct (format_bioregistry_json pm None contributor); cbn [bind] in H; discriminate H.
  - destruct (extract_database_info email_search email_remove agent u);
      [destruct (format_bioregistry_json pm (Some _) contributor)
      | destruct (format_bioregistry_json pm None contributor)];
      cbn [bind] in H; discriminate H.
Qed.

End Endpoint_facts.

(** ** Strings: reversal, suffixes and characters *)

Lemma rev_string_app (a b : string) : rev_string (a ++ b) = rev_string b ++ rev_string a.
Proof.
  induction a as [|c r IH]; simpl.
  - now rewrite sappend_nil_r.
  - rewrite IH. apply sappend_assoc.
Qed.

Lemma rev_string_involutive (s : string) : rev_string (rev_string s) = s.
Proof. induction s as [|c r IH]; simpl; [reflexivity|]. now rewrite rev_string_app, IH. Qed.

Lemma starts_with_rev (p : ascii -> bool) (s : string) :
  starts_with p (rev_string s) = ends_with p s.
Proof. rewrite <- (rev_string_involutive s) at 2. symmetry. apply ends_with_rev. Qed.

Lemma forall_chars_app (p : ascii -> bool) (a b : string) :
  forall_chars p (a ++ b) = forall_chars p a && forall_chars p b.
Proof. induction a as [|c r IH]; simpl; [reflexivity|]. now rewrite IH, andb_assoc. Qed.

Lemma forall_chars_rev (p : ascii -> bool) (s : string) :
  forall_chars p (rev_string s) = forall_chars p s.
Proof.
  induction s as [|c r IH]; simpl; [reflexivity|].
  rewrite forall_chars_app, IH. simpl. now rewrite andb_true_r, andb_comm.
Qed.

Lemma has_char_app (x : ascii) (a b : string) :
  has_char x (a ++ b) = has_char x a || has_char x b.
Proof. induction a as [|c r IH]; simpl; [reflexivity|]. now rewrite IH, orb_assoc. Qed.

Lemma has_char_rev (x : ascii) (s : string) : has_char x (rev_string s) = has_char x s.
Proof.
  induction s as [|c r IH]; simpl; [reflexivity|].
  rewrite has_char_app, IH. simpl. now rewrite orb_false_r, orb_comm.
Qed.

Lemma lstrip_with_suffix (p : ascii -> bool) (s : string) :
  exists w, s = w ++ lstrip_with p s.
Proof.
  induction s as [|c r [w IH]]; simpl; [now exists EmptyString|].
  destruct (p c); [exists (String c w); simpl; now f_equal | now exists EmptyString].
Qed.

Lemma lstrip_is_with (s : string) : lstrip s = lstrip_with is_space s.
Proof. induction s as [|c r IH]; simpl; [reflexivity|]. now rewrite IH. Qed.

Lemma starts_lstrip_with (p : ascii -> bool) (s : string) :
  starts_with p (lstrip_with p s) = false.
Proof.
  induction s as [|c r IH]; simpl; [reflexivity|].
  destruct (p c) eqn:E; simpl; auto.
Qed.

Lemma lstrip_with_app (p : ascii -> bool) (x y : string) :
  starts_with p y = false -> lstrip_with p (x ++ y) = lstrip_with p x ++ y.
Proof.
  intros Hy. induction x as [|c r IH]; simpl.
  - destruct y as [|d r']; simpl in *; [reflexivity|]. now rewrite Hy.
  - destruct (p c); [exact IH | reflexivity].
Qed.

(** [rstrip u] followed by the blanks it removed gives back [u]. *)
Lemma rstrip_prefix (s : string) : exists w, s = rstrip s ++ w.
Proof.
  unfold rstrip. rewrite lstrip_is_with.
  destruct (lstrip_with_suffix is_space (rev_string s)) as [w Hw].
  exists (rev_string w). rewrite <- rev_string_app, <- Hw. symmetry. apply rev_string_involutive.
Qed.

Lemma strip_substring (s : string) : exists a b, s = a ++ strip s ++ b.
Proof.
  unfold strip. destruct (lstrip_with_suffix is_space s) as [a Ha].
  rewrite <- lstrip_is_with in Ha. destruct (rstrip_prefix (lstrip s)) as [b Hb].
  exists a, b. rewrite <- Hb. exact Ha.
Qed.

Lemma has_char_strip (x : ascii) (s : string) :
  has_char x s = false -> has_char x (strip s) = false.
Proof.
  destruct (strip_substring s) as (a & b & Hs). rewrite Hs at 1.
  rewrite !has_char_app. now intros [_ [? _]%orb_false_elim]%orb_false_elim.
Qed.

Lemma strip_not_starts_space (s : string) : starts_with is_space (strip s) = false.
Proof.
  destruct (rstrip_prefix (lstrip s)) as [w Hw]. unfold strip.
  pose proof (lstrip_head s) as H. rewrite Hw in H.
  destruct (rstrip (lstrip s)); [reflexivity | exact H].
Qed.

Lemma strip_id (s : string) :
  starts_with is_space s = false -> ends_with is_space s = false -> strip s = s.
Proof.
  intros Hs He. unfold strip, rstrip.
  assert (Hl : lstrip s = s) by (destruct s as [|c r]; simpl in *; [|rewrite Hs]; reflexivity).
  rewrite Hl, lstrip_is_with.
  rewrite <- starts_with_rev in He.
  destruct (rev_string s) as [|c r] eqn:E; simpl in He |- *.
  - rewrite <- (rev_string_involutive s), E. reflexivity.
  - rewrite He, <- E. apply rev_string_involutive.
Qed.

Lemma strip_strip (s : string) : strip (strip s) = strip s.
Proof. apply strip_id; [apply strip_not_starts_space | apply strip_not_ends_space]. Qed.

Lemma lower_char_idem (c : ascii) : lower_char (lower_char c) = lower_char c.
Proof. destruct c as [[] [] [] [] [] [] [] []]; reflexivity. Qed.

Lemma lower_idem (s : string) : lower (lower s) = lower s.
Proof. induction s as [|c r IH]; simpl; [reflexivity|]. now rewrite lower_char_idem, IH. Qed.

Lemma split_on_no_sep (sep : ascii) (s : string) :
  Forall (fun x => has_char sep x = false) (split_on sep s).
Proof.
  induction s as [|c r IH]; simpl; [repeat constructor|].
  destruct (Ascii.eqb c sep) eqn:E; [constructor; [reflexivity | exact IH]|].
  destruct (split_on sep r) as [|x xs]; inversion IH; subst.
  - repeat constructor. simpl. now rewrite E.
  - constructor; [simpl; rewrite E; assumption | assumption].
Qed.

Lemma Forall_firstn_keep {A} (P : A -> Prop) (n : nat) (l : list A) :
  Forall P l -> Forall P (firstn n l).
Proof.
  intros H; revert n; induction H as [|x l Hx _ IH]; intros [|n]; simpl; auto.
Qed.

Lemma clean_pieces (sep : ascii) (s : string) :
  Forall (fun k => k <> EmptyString /\ strip k = k /\ has_char sep k = false)
    (map strip (filter (fun k => nonempty (strip k)) (split_on sep s))).
Proof.
  pose proof (split_on_no_sep sep s) as H.
  induction H as [|x l Hx _ IH]; simpl; [constructor|].
  destruct (nonempty (strip x)) eqn:En; [|exact IH].
  constructor; [|exact IH]. repeat split.
  - intros Hx0. rewrite Hx0 in En. discriminate.
  - apply strip_strip.
  - now apply has_char_strip.
Qed.

(** ** The URL scan: shape of its results *)

Lemma runs_by_chars (p : ascii -> bool) (s : string) :
  forall_chars (fun c => negb (p c)) (fst (runs_by p s)) = true
  /\ Forall (fun t => forall_chars (fun c => negb (p c)) t = true) (snd (runs_by p s)).
Proof.
  induction s as [|c r IH]; simpl; [split; [reflexivity | constructor]|].
  destruct (runs_by p r) as [t ts]; simpl in IH |- *. destruct IH as [Ht Hts].
  destruct (p c) eqn:E; simpl.
  - split; [reflexivity|]. destruct t; [exact Hts | constructor; assumption].
  - rewrite Ht, E. split; [reflexivity | exact Hts].
Qed.

Lemma runs_chars (s : string) :
  Forall (fun t => forall_chars (fun c => negb (is_url_stop c)) t = true) (runs s).
Proof.
  unfold runs, runs_aux. pose proof (runs_by_chars is_url_stop s) as [Ht Hts].
  destruct (runs_by is_url_stop s) as [t ts]; simpl in *.
  destruct t; [exact Hts | constructor; assumption].
Qed.

Lemma prefix_app (a u : string) : String.prefix a u = true -> exists r, u = a ++ r.
Proof.
  revert u; induction a as [|x a IH]; intros u H; [now exists u|].
  destruct u as [|c u]; simpl in H; [discriminate|].
  destruct (ascii_dec x c) as [->|]; [|discriminate].
  destruct (IH u H) as [r ->]. now exists r.
Qed.

Lemma first_url_in_run_spec (t u : string) :
  first_url_in_run t = Some u ->
  (lit_then_more "https://" u || lit_then_more "http://" u) = true
  /\ exists pre, t = pre ++ u.
Proof.
  induction t as [|c r IH]; simpl; [discriminate|].
  destruct (lit_then_more "https://" (String c r) || lit_then_more "http://" (String c r)) eqn:E.
  - intros H; injection H as <-. split; [exact E | now exists EmptyString].
  - intros H. destruct (IH H) as [Hu [pre ->]]. split; [exact Hu|]. now exists (String c pre).
Qed.

Lemma strip_trailing_punct_app (a b : string) :
  ends_with is_trail_punct a = false ->
  strip_trailing_punct (a ++ b) = a ++ strip_trailing_punct b.
Proof.
  intros Ha. unfold strip_trailing_punct.
  rewrite rev_string_app, lstrip_with_app by (now rewrite starts_with_rev).
  now rewrite rev_string_app, rev_string_involutive.
Qed.

Lemma strip_trailing_punct_prefix (u : string) : exists w, u = strip_trailing_punct u ++ w.
Proof.
  unfold strip_trailing_punct.
  destruct (lstrip_with_suffix is_trail_punct (rev_string u)) as [w Hw].
  exists (rev_string w). rewrite <- rev_string_app, <- Hw. symmetry. apply rev_string_involutive.
Qed.

Lemma strip_trailing_punct_end (u : string) :
  ends_with is_trail_punct (strip_trailing_punct u) = false.
Proof. unfold strip_trailing_punct. rewrite ends_with_rev. apply starts_lstrip_with. Qed.


(** ** The contact e-mail *)

Lemma span_spec (p : ascii -> bool) (s a b : string) :
  span p s = (a, b) -> s = a ++ b /\ forall_chars p a = true.
Proof.
  revert a b; induction s as [|c r IH]; intros a b; simpl.
  - intros H; injection H as <- <-. split; reflexivity.
  - destruct (p c) eqn:E.
    + destruct (span p r) as [a' b'] eqn:Es. intros H; injection H as <- <-.
      destruct (IH a' b' eq_refl) as [-> Ha]. simpl. rewrite E, Ha. split; reflexivity.
    + intros H; injection H as <- <-. split; reflexivity.
Qed.

(** The shape of a match of [\.[A-Za-z]{2,}]. *)
Lemma dot_tld_spec (s m rest : string) :
  dot_tld s = Some (m, rest) ->
  s = m ++ rest /\ exists t, m = String "." t /\ forall_chars is_ascii_letter t = true
                              /\ (2 <= String.length t)%nat.
Proof.
  destruct s as [|c r]; cbn [dot_tld]; [discriminate|].
  destruct (Ascii.eqb_spec c ".") as [->|]; [|discriminate].
  destruct (span is_ascii_letter r) as [l rest'] eqn:Es.
  destruct (2 <=? String.length l)%nat eqn:El; [|discriminate].
  intros H; injection H as <- <-. destruct (span_spec _ _ _ _ Es) as [-> Hl].
  split; [reflexivity|]. exists l. split; [reflexivity|]. split; [exact Hl | now apply Nat.leb_le].
Qed.

Lemma domain_tld_spec (s m rest : string) :
  domain_tld s = Some (m, rest) ->
  s = m ++ rest /\ exists dom t, m = dom ++ String "." t /\ dom <> EmptyString
    /\ forall_chars is_email_domain dom = true /\ forall_chars is_ascii_letter t = true
    /\ (2 <= String.length t)%nat.
Proof.
  revert m rest; induction s as [|c r IH]; intros m rest; simpl; [discriminate|].
  destruct (is_email_domain c) eqn:Ec; [|discriminate].
  destruct (domain_tld r) as [[m' rest']|] eqn:Ed.
  - intros H; injection H as <- <-. destruct (IH m' rest' eq_refl) as [-> (dom & t & -> & _ & Hd & Ht & Hl)].
    split; [reflexivity|]. exists (String c dom), t. simpl. rewrite Ec, Hd.
    split; [reflexivity|]. split; [discriminate|]. split; [reflexivity|]. split; [exact Ht | exact Hl].
  - destruct (dot_tld r) as [[m' rest']|] eqn:Et; [|discriminate].
    intros H; injection H as <- <-. destruct (dot_tld_spec _ _ _ Et) as [-> (t & -> & Ht & Hl)].
    split; [reflexivity|]. exists (String c EmptyString), t. simpl. rewrite Ec.
    split; [reflexivity|]. split; [discriminate|]. split; [reflexivity|]. split; [exact Ht | exact Hl].
Qed.

Lemma email_at_spec (s m rest : string) :
  email_at s = Some (m, rest) -> s = m ++ rest /\ email_shaped m.
Proof.
  revert m rest; induction s as [|c r IH]; intros m rest; simpl; [discriminate|].
  destruct (is_email_local c) eqn:Ec; [|discriminate].
  destruct (email_at r) as [[m' rest']|] eqn:Ee.
  - intros H; injection H as <- <-.
    destruct (IH m' rest' eq_refl) as [-> (l & dom & t & -> & _ & Hl & Hrest)].
    split; [reflexivity|]. exists (String c l), dom, t. simpl. rewrite Ec, Hl.
    split; [reflexivity|]. split; [discriminate|]. split; [reflexivity | exact Hrest].
  - destruct r as [|a r']; [discriminate|].
    destruct (Ascii.eqb_spec a "@") as [->|]; [|discriminate].
    destruct (domain_tld r') as [[m' rest']|] eqn:Ed; [|discriminate].
    intros H; injection H as <- <-. destruct (domain_tld_spec _ _ _ Ed) as [-> (dom & t & -> & Hrest)].
    split; [reflexivity|]. exists (String c EmptyString), dom, t. simpl. rewrite Ec.
    split; [reflexivity|]. split; [discriminate|]. split; [reflexivity | exact Hrest].
Qed.

Lemma search_email_spec (s m : string) :
  search_email s = Some m -> (exists pre post, s = pre ++ m ++ post) /\ email_shaped m.
Proof.
  induction s as [|c r IH]; [discriminate|].
  cbn [search_email]. destruct (email_at (String c r)) as [[m' rest]|] eqn:Ee.
  - intros H; injection H as <-. destruct (email_at_spec _ _ _ Ee) as [Hs Hm].
    split; [exists EmptyString, rest; exact Hs | exact Hm].
  - intros H. destruct (IH H) as [(pre & post & ->) Hm].
    split; [exists (String c pre), post; reflexivity | exact Hm].
Qed.

Lemma email_shaped_at (m : string) : email_shaped m -> has_char "@" m = true.
Proof.
  intros (l & dom & t & -> & _). rewrite has_char_app. simpl. now rewrite orb_true_r.
Qed.

Lemma email_at_has_at (s m rest : string) : email_at s = Some (m, rest) -> has_char "@" s = true.
Proof.
  intros H. destruct (email_at_spec _ _ _ H) as [-> Hm].
  rewrite has_char_app, email_shaped_at by exact Hm. reflexivity.
Qed.

Lemma open_email_has_at (s m rest : string) : open_email s = Some (m, rest) -> has_char "@" s = true.
Proof.
  unfold open_email. destruct s as [|c r]; [discriminate|].
  destruct (Ascii.eqb c "(" || Ascii.eqb c "[").
  - destruct (email_at r) as [[m' rest']|] eqn:Ee.
    + intros _. cbn [has_char]. apply email_at_has_at in Ee. now rewrite Ee, orb_true_r.
    + apply email_at_has_at.
  - apply email_at_has_at.
Qed.

Lemma ws_open_email_has_at (s m rest : string) :
  ws_open_email s = Some (m, rest) -> has_char "@" s = true.
Proof.
  revert m rest; induction s as [|c r IH]; intros m rest; cbn [ws_open_email]; [discriminate|].
  destruct (is_space c).
  - destruct (ws_open_email r) as [[m' rest']|] eqn:Ew.
    + intros _. cbn [has_char]. now rewrite (IH m' rest' eq_refl), orb_true_r.
    + apply open_email_has_at.
  - apply open_email_has_at.
Qed.

Lemma contact_email_match_has_at (s : string) (n : nat) :
  contact_email_match s = Some n -> has_char "@" s = true.
Proof.
  unfold contact_email_match. destruct (ws_open_email s) as [[m rest]|] eqn:Ew; [|discriminate].
  intros _. exact (ws_open_email_has_at _ _ _ Ew).
Qed.

Lemma sub_email_no_at (s : string) : has_char "@" s = false -> sub_email_aux O s = s.
Proof.
  induction s as [|c r IH]; intros H; [reflexivity|].
  cbn [sub_email_aux]. destruct (contact_email_match (String c r)) as [n|] eqn:Em.
  - apply contact_email_match_has_at in Em. congruence.
  - simpl in H. apply orb_false_elim in H as [_ H]. now rewrite IH.
Qed.


(** ** The agent-text parser: invariants of the loop *)

Lemma fold_update_inv (Q : DbInfo -> Prop) (lines : list string) (e : DbInfo) :
  (forall e ln, Q e -> Q (update_field e ln)) -> Q e -> Q (fold_left update_field lines e).
Proof.
  intros Hstep. revert e; induction lines as [|ln r IH]; intros e He; simpl; auto.
Qed.

Lemma update_field_prefix_lower (e : DbInfo) (ln : string) :
  lower (db_prefix e) = db_prefix e -> lower (db_prefix (update_field e ln)) = db_prefix (update_field e ln).
Proof. intros H. update_cases. apply lower_idem. Qed.

Lemma update_field_trimmed (e : DbInfo) (ln : string) :
  (strip (db_name e) = db_name e /\ strip (db_description e) = db_description e
   /\ strip (db_example e) = db_example e /\ strip (db_uri_format e) = db_uri_format e
   /\ Forall (fun k => k <> EmptyString /\ strip k = k /\ has_char "," k = false) (db_keywords e)) ->
  let e' := update_field e ln in
  strip (db_name e') = db_name e' /\ strip (db_description e') = db_description e'
  /\ strip (db_example e') = db_example e' /\ strip (db_uri_format e') = db_uri_format e'
  /\ Forall (fun k => k <> EmptyString /\ strip k = k /\ has_char "," k = false) (db_keywords e').
Proof.
  intros H. update_cases; destruct H as (H1 & H2 & H3 & H4 & H5);
    destruct (parse_line_val _ _ _ E) as [post ->];
    repeat split; try assumption; try apply strip_strip.
  apply Forall_firstn_keep, clean_pieces.
Qed.

Lemma update_field_name_set (e : DbInfo) (ln raw v : string) :
  parse_line ln = Some (raw, v) -> label_norm raw = "name" -> db_name (update_field e ln) = v.
Proof. intros Hp Hl. unfold update_field. rewrite Hp. cbv zeta. rewrite Hl. reflexivity. Qed.

Lemma update_field_name_keep (e : DbInfo) (ln : string) :
  (forall raw v, parse_line ln = Some (raw, v) -> label_norm raw <> "name") ->
  db_name (update_field e ln) = db_name e.
Proof.
  intros H. unfold update_field. destruct (parse_line ln) as [[raw v]|] eqn:E; [|reflexivity].
  cbv zeta. destruct (String.eqb_spec (label_norm raw) "name") as [Hn|_]; [now destruct (H raw v eq_refl)|].
  repeat match goal with |- context [if ?b then _ else _] => destruct b end; reflexivity.
Qed.


Lemma unescape_newlines_no_colon (s : string) :
  has_char ":" s = false -> has_char ":" (unescape_newlines s) = false.
Proof.
  enough (H : forall s, (has_char ":" s = false -> has_char ":" (unescape_newlines s) = false)
     /\ forall c, has_char ":" (String c s) = false
                  -> has_char ":" (unescape_newlines (String c s)) = false) by apply H.
  clear s. induction s as [|d r [IH1 IH2]].
  - split; [reflexivity|]. intros c H. exact H.
  - split; [exact (IH2 d)|]. intros c H. cbn [unescape_newlines].
    simpl in H. apply orb_false_elim in H as [Hc H].
    destruct (Ascii.eqb c "\" && Ascii.eqb d "n").
    + cbn [has_char]. rewrite (IH1 (proj2 (orb_false_elim _ _ H))). reflexivity.
    + cbn [has_char]. rewrite Hc. exact (IH2 d H).
Qed.

Lemma splitlines_aux_no_colon (s : string) :
  has_char ":" s = false ->
  has_char ":" (fst (splitlines_aux s)) = false
  /\ Forall (fun l => has_char ":" l = false) (snd (splitlines_aux s)).
Proof.
  induction s as [|c r IH]; intros H; [split; [reflexivity | constructor]|].
  simpl in H. apply orb_false_elim in H as [Hc H]. destruct (IH H) as [H1 H2].
  cbn [splitlines_aux]. destruct (splitlines_aux r) as [cur ls]; simpl in H1, H2.
  destruct (is_line_break c); [destruct (_ && _)|]; simpl.
  - split; assumption.
  - split; [reflexivity | constructor; assumption].
  - rewrite Hc. split; assumption.
Qed.

Lemma drop_last_empty_forall (P : string -> Prop) (l : list string) :
  Forall P l -> Forall P (drop_last_empty l).
Proof.
  induction 1 as [|x r Hx Hr IH]; [constructor|]. cbn [drop_last_empty].
  destruct x; [destruct r|]; auto.
Qed.

Lemma split_colon_none (s : string) : has_char ":" s = false -> split_colon s = None.
Proof.
  induction s as [|c r IH]; intros H; [reflexivity|].
  simpl in H. apply orb_false_elim in H as [Hc H]. cbn [split_colon]. rewrite Hc, IH by exact H.
  reflexivity.
Qed.

Lemma parse_agent_text_no_colon (t : string) :
  has_char ":" t = false -> parse_agent_text (Some t) = empty_extracted.
Proof.
  intros H. unfold parse_agent_text.
  assert (Hl : Forall (fun l => parse_line l = None)
                 (filter nonempty (map strip (splitlines (unescape_newlines t))))).
  { apply Forall_forall. intros l Hin. apply filter_In in Hin as [Hin _].
    apply in_map_iff in Hin as [l0 [<- Hin]].
    unfold splitlines in Hin.
    destruct (splitlines_aux_no_colon _ (unescape_newlines_no_colon _ H)) as [H1 H2].
    destruct (splitlines_aux (unescape_newlines t)) as [cur ls]. simpl in H1, H2.
    assert (Hf : Forall (fun l => has_char ":" l = false) (drop_last_empty (cur :: ls)))
      by (apply drop_last_empty_forall; constructor; assumption).
    pose proof (proj1 (Forall_forall _ _) Hf l0 Hin) as Hl0. cbv beta in Hl0.
    unfold parse_line. rewrite split_colon_none by (now apply has_char_strip). reflexivity. }
  generalize empty_extracted. induction Hl as [|l r Hl _ IH]; intros e; [reflexivity|].
  cbn [fold_left]. rewrite IH. unfold update_field. now rewrite Hl.
Qed.


(** ** PubMed years *)

Lemma year_at_range (s : string) (y : Z) : year_at s = Some y -> (1900 <= y <= 2099)%Z.
Proof.
  unfold year_at. destruct s as [|c [|b [|c' [|d r']]]]; try discriminate.
  destruct ((Ascii.eqb c "1" && Ascii.eqb b "9") || (Ascii.eqb c "2" && Ascii.eqb b "0")) eqn:Hab;
    cbn [andb]; [|discriminate].
  destruct (is_digit c') eqn:Hc; destruct (is_digit d) eqn:Hd; cbn [andb]; try discriminate.
  intros H.
  enough (Hr : (1900 <= 1000 * digit_val c + 100 * digit_val b + 10 * digit_val c' + digit_val d
                <= 2099)%Z) by (injection H as <-; exact Hr).
  unfold is_digit in Hc, Hd.
  apply andb_prop in Hc as [Hc1 Hc2]. apply andb_prop in Hd as [Hd1 Hd2].
  apply Nat.leb_le in Hc1, Hc2, Hd1, Hd2.
  assert (Hc' : (0 <= digit_val c' <= 9)%Z) by (unfold digit_val; lia).
  assert (Hd' : (0 <= digit_val d <= 9)%Z) by (unfold digit_val; lia).
  assert (Hab' : (digit_val c = 1 /\ digit_val b = 9 \/ digit_val c = 2 /\ digit_val b = 0)%Z).
  { apply orb_prop in Hab as [Hab|Hab]; apply andb_prop in Hab as [H1 H2];
      apply Ascii.eqb_eq in H1, H2; subst; [left|right]; split; reflexivity. }
  clear - Hc' Hd' Hab'. lia.
Qed.

Lemma search_year_range (s : string) (y : Z) : search_year s = Some y -> (1900 <= y <= 2099)%Z.
Proof.
  induction s as [|c r IH]; [discriminate|]. cbn [search_year].
  destruct (year_at (String c r)) as [y'|] eqn:E; [|exact IH].
  intros H; injection H as <-. exact (year_at_range _ _ E).
Qed.


(** ** Endpoint responses *)

(** The bodies of the view's responses are concrete dictionaries; their
    keys are read by lookup. *)
Ltac body_keys := do 2 eexists; repeat split; reflexivity.

Section Endpoint_shape.

Variable email_search : string -> option string.
Variable email_remove : string -> string.

Lemma run_pipeline_shape (indra : indra_client) (agent : string -> agent_outcome)
    (pmid : string) (contributor : pyval) (r : response) :
  run_pipeline email_search email_remove indra agent pmid contributor = Ok r ->
  (status_code r = 200%Z
   /\ exists d data, body r = PyDict d /\ dict_get d "status" = Some (PyStr "success")
                    /\ dict_get d "data" = Some data /\ dict_get d "message" = None)
  \/ ((status_code r = 400%Z \/ status_code r = 500%Z)
      /\ exists d m, body r = PyDict d /\ dict_get d "status" = Some (PyStr "error")
                     /\ dict_get d "message" = Some m).
Proof.
  unfold run_pipeline. intros H.
  destruct (extract_pubmed_metadata indra pmid) as [pm|e]; cbn [bind] in H; [|discriminate H].
  destruct (truthy (get_default pm "error" PyNone)).
  { injection H as <-. right. split; [now right | body_keys]. }
  destruct (py_slice50 _); cbn [bind] in H; [|discriminate H].
  destruct (py_or (get_default pm "abstract" PyNone) empty_str) as [|b|z|abs|l|d];
    cbn [bind] in H; try discriminate H.
  destruct (find_urls abs) as [|u us].
  - destruct (format_bioregistry_json pm None contributor); cbn [bind] in H; [|discriminate H].
    injection H as <-. right. split; [now left | body_keys].
  - destruct (extract_database_info email_search email_remove agent u).
    + destruct (format_bioregistry_json pm (Some _) contributor); cbn [bind] in H; [|discriminate H].
      injection H as <-. left. split; [reflexivity | body_keys].
    + destruct (format_bioregistry_json pm None contributor); cbn [bind] in H; [|discriminate H].
      injection H as <-. right. split; [now right | body_keys].
Qed.

Lemma validate_dict_ok (d : pydict) :
  (forall v, dict_get d "pmid" = Some v -> truthy v = false \/ is_str v = true) ->
  exists v, validate (PyDict d) = Ok v.
Proof.
  intros Hp. unfold validate.
  assert (Hd : exists d', py_or (PyDict d) (PyDict []) = PyDict d'
                          /\ (forall v, dict_get d' "pmid" = Some v -> truthy v = false \/ is_str v = true)).
  { unfold py_or. destruct d as [|kv d]; simpl; eexists; split; try reflexivity; [discriminate | exact Hp]. }
  destruct Hd as [d' [-> Hp']]. cbn [py_get bind].
  assert (Hs : exists s, py_or (match dict_get d' "pmid" with Some x => x | None => PyNone end) empty_str
                         = PyStr s).
  { destruct (dict_get d' "pmid") as [v|] eqn:E; [|eexists; reflexivity].
    unfold py_or. destruct (Hp' v eq_refl) as [Hf|Hstr]; [rewrite Hf; eexists; reflexivity|].
    destruct v; try discriminate. destruct (truthy _); eexists; reflexivity. }
  destruct Hs as [s ->]. cbn [bind].
  destruct (negb (nonempty (strip s)) || negb (fullmatch_digits (strip s))); eexists; reflexivity.
Qed.

End Endpoint_shape.

(** * Claims *)

(** ** C9 *)

(** C9: every DatabaseInfo record the extractor produces has at most 3
    keywords (comma-split, trimmed, empties dropped, first 3 kept), and the
    keyword value "a, b, c, d" gives ["a"; "b"; "c"]. *)
Theorem extractor_keywords_at_most_3 :
  (forall email_search email_remove agent homepage_url,
     match extract_database_info email_search email_remove agent homepage_url with
     | Ok d => (length (db_keywords d) <= 3)%nat
     | Raise _ => True
     end)
  /\ (forall email_search email_remove homepage_url,
        db_keywords (db_info_of_text email_search email_remove (Some "Keywords: a, b, c, d") homepage_url)
        = ["a"; "b"; "c"]).
Proof.
  split.
  - intros es er agent hp. unfold extract_database_info.
    destruct (agent hp) as [e|final]; [exact I|].
    simpl. unfold parse_agent_text. apply fold_update_keywords. simpl. lia.
  - reflexivity.
Qed.

(** ** C5 *)

(** C5 (amended): when the parsed pattern is empty and the parsed example is
    not, an example made of upper-case letters A-Z followed by digits gives
    [^LETTERS\d{N}$] with N the number of digits, an all-digit example gives
    [^\d{N}$] with N its length, and any other example (lower-case letters
    included) leaves the pattern empty. *)
Theorem extractor_infers_pattern (email_search : string -> option string)
    (email_remove : string -> string) (final : option string) (homepage_url : string) :
  db_pattern (parse_agent_text final) = EmptyString ->
  db_example (parse_agent_text final) <> EmptyString ->
  (forall L D, db_example (parse_agent_text final) = L ++ D ->
     L <> EmptyString -> forall_chars is_upper_az L = true ->
     D <> EmptyString -> forall_chars is_digit D = true ->
     db_pattern (db_info_of_text email_search email_remove final homepage_url)
       = "^" ++ L ++ "\d{" ++ nat_to_dec (String.length D) ++ "}$")
  /\ (forall_chars is_digit (db_example (parse_agent_text final)) = true ->
      db_pattern (db_info_of_text email_search email_remove final homepage_url)
        = "^\d{" ++ nat_to_dec (String.length (db_example (parse_agent_text final))) ++ "}$")
  /\ ((~ exists L D, db_example (parse_agent_text final) = L ++ D /\ L <> EmptyString
          /\ forall_chars is_upper_az L = true /\ D <> EmptyString
          /\ forall_chars is_digit D = true) ->
      forall_chars is_digit (db_example (parse_agent_text final)) = false ->
      db_pattern (db_info_of_text email_search email_remove final homepage_url) = EmptyString).
Proof.
  intros Hp He. unfold db_info_of_text; simpl. unfold infer_pattern.
  pose proof (parsed_example_no_trailing_space final) as Hend.
  destruct (parse_agent_text final) as [n pr ds hm ex pat uri cn ce kw]; simpl in *.
  subst pat. simpl.
  assert (Hne : nonempty ex = true).
  { destruct ex; [congruence | reflexivity]. }
  rewrite Hne. simpl.
  split; [|split].
  - intros L D -> HL HLu HD HDd.
    rewrite upper_then_digits_shape by assumption.
    assert (HLn : nonempty L = true) by (destruct L; [congruence | reflexivity]).
    rewrite HLn. simpl.
    rewrite (take_upper_shape L D), (count_digits_shape L D) by assumption. reflexivity.
  - intros Hd.
    destruct ex as [|c r]; [congruence|]. simpl in Hd |- *.
    apply andb_prop in Hd as [Hc Hr]. rewrite (digit_not_upper c Hc), Hc.
    change (digits_then_dollar true r = true) with (digits_then_dollar true r = true).
    rewrite digits_then_dollar_digits by assumption. reflexivity.
  - intros Hshape Hnd.
    destruct (upper_then_digits false ex) eqn:Eu.
    + destruct (upper_then_digits_inv _ _ Eu Hend) as (L & D & HLD & [Hf|HL] & Hu & HD & HDd);
        [discriminate|].
      exfalso. apply Hshape. exists L, D. auto.
    + destruct (digits_then_dollar false ex) eqn:Ed; [|reflexivity].
      destruct (digits_then_dollar_inv _ _ Ed Hend) as [Hd _]. congruence.
Qed.

(** ** C6 *)

(** C6 (amended): when the parsed prefix is empty and the parsed name is not,
    the prefix is the concatenation, over the whitespace-separated words of
    the name, of the lower-cased first character of each word (whatever that
    character is). *)
Theorem extractor_derives_prefix (email_search : string -> option string)
    (email_remove : string -> string) (final : option string) (homepage_url : string) :
  db_prefix (parse_agent_text final) = EmptyString ->
  db_name (parse_agent_text final) <> EmptyString ->
  db_prefix (db_info_of_text email_search email_remove final homepage_url)
    = String.concat EmptyString
        (map (fun w => lower (first_char w)) (split_ws (db_name (parse_agent_text final)))).
Proof.
  intros Hp Hn. unfold db_info_of_text; simpl. unfold derive_prefix.
  destruct (parse_agent_text final) as [n pr ds hm ex pat uri cn ce kw]; simpl in *.
  subst pr. assert (Hne : nonempty n = true) by (destruct n; [congruence | reflexivity]).
  rewrite Hne. simpl.
  rewrite filter_nonempty_id by apply split_ws_nonempty.
  rewrite lower_concat, map_map. reflexivity.
Qed.

Lemma extractor_infers_pattern_witness :
  db_pattern (db_info_of_text no_email keep_name (Some "Example: ABC123") "https://x.org")
    = "^ABC\d{3}$"
  /\ db_pattern (db_info_of_text no_email keep_name (Some "Example: 12345") "https://x.org")
    = "^\d{5}$".
Proof.
  split.
  - destruct (extractor_infers_pattern no_email keep_name (Some "Example: ABC123") "https://x.org"
                eq_refl ltac:(intro H; vm_compute in H; discriminate H)) as [H _].
    exact (H "ABC" "123" eq_refl ltac:(discriminate) eq_refl ltac:(discriminate) eq_refl).
  - destruct (extractor_infers_pattern no_email keep_name (Some "Example: 12345") "https://x.org"
                eq_refl ltac:(intro H; vm_compute in H; discriminate H)) as [_ [H _]].
    exact (H eq_refl).
Defined.

(** C5 fails as stated: the example "abc123" is letters followed by digits,
    yet no pattern is synthesized ([^[A-Z]+\d+$] admits upper case only). *)
Lemma extractor_infers_pattern_lowercase_cx :
  db_example (db_info_of_text no_email keep_name (Some "Example: abc123") "https://x.org")
    = "abc123"
  /\ db_pattern (db_info_of_text no_email keep_name (Some "Example: abc123") "https://x.org")
    = EmptyString.
Proof. split; reflexivity. Qed.

Lemma extractor_derives_prefix_witness :
  db_prefix (db_info_of_text no_email keep_name
               (Some "Name: Kyoto Encyclopedia of Genes and Genomes") "https://x.org")
    = "keogag".
Proof.
  exact (extractor_derives_prefix no_email keep_name
           (Some "Name: Kyoto Encyclopedia of Genes and Genomes") "https://x.org"
           eq_refl ltac:(intro H; vm_compute in H; discriminate H)).
Defined.

(** C6 fails as stated: for the name "Gene Ontology (GO)" the derived prefix
    ends in "(", the first character of the word "(GO)", not a letter. *)
Lemma extractor_derives_prefix_nonletter_cx :
  db_prefix (db_info_of_text no_email keep_name (Some "Name: Gene Ontology (GO)") "https://x.org")
    = "go(".
Proof. reflexivity. Qed.

(** ** C4 *)

(** C4 (amended): the URL scan cuts the text into its maximal runs of
    characters other than whitespace, [)] and [\]], in order; each run
    contributes at most one URL, namely the part of the run from the first
    place where [http://] or [https://] is followed by at least one more
    character of the run (not necessarily the start of the run), and each URL
    then loses its trailing run of [.,;:].  In particular the text
    "see http://a.co/x, and https://b.org/y)." yields
    ["http://a.co/x"; "https://b.org/y"]. *)
Theorem url_scan_by_runs (text : string) :
  find_urls text = map strip_trailing_punct (flat_map url_of_run (runs text))
  /\ find_urls "see http://a.co/x, and https://b.org/y)."
     = ["http://a.co/x"; "https://b.org/y"].
Proof. split; [exact (find_urls_spec text) | reflexivity]. Qed.

(** C4 fails as stated: a bare "http://" run yields nothing, and a run that
    only contains "http://" further in (here "xhttp://a.b") yields its tail. *)
Lemma url_scan_bare_scheme_cx :
  find_urls "see http:// and xhttp://a.b" = ["http://a.b"].
Proof. reflexivity. Qed.

(** ** C7 *)

(** C7 (amended): when the [homepage] entry of the publication record is
    absent or a string, the assembler returns a single-key mapping.  Its
    name is the stripped DatabaseInfo name if that is non-empty; otherwise the
    label that [https?://(?:www\.)?([^/\.]+)] finds in the homepage (the
    DatabaseInfo homepage if non-empty, else the publication's), a non-empty
    text without [/] or [.]; and "database" when that search finds nothing,
    be the homepage empty or not (an [ftp://] or scheme-less homepage gives
    "database").  The key is the stripped DatabaseInfo prefix if non-empty,
    else [key_of_name] of the name: the name without its version suffix,
    stripped, reduced to ASCII letters and digits and lower-cased, which is
    "database_key" when nothing remains and otherwise a non-empty text of
    lower-case ASCII letters and digits. *)
Theorem assembler_name_and_key (pubmed : pydict) (db : option DbInfo) (contributor : pyval)
  (Hhome : forall v, dict_get pubmed "homepage" = Some v -> exists h, v = PyStr h) :
  exists name rec,
    format_bioregistry_json pubmed db contributor
      = Ok (PyDict [(if nonempty (strip (match db with Some d => db_prefix d | None => EmptyString end))
                     then strip (match db with Some d => db_prefix d | None => EmptyString end)
                     else key_of_name name, PyDict rec)])
    /\ dict_get rec "name" = Some (PyStr name)
    /\ (if nonempty (strip (match db with Some d => db_name d | None => EmptyString end))
        then name = strip (match db with Some d => db_name d | None => EmptyString end)
        else match search_domain (assembler_homepage pubmed db) with
             | Some l => name = l /\ nonempty l = true /\ forall_chars not_slash_dot l = true
             | None => name = "database"
             end)
    /\ (key_of_name name = "database_key"
        \/ (nonempty (key_of_name name) = true
            /\ forall_chars is_lower_alnum (key_of_name name) = true)).
Proof.
  destruct (assembler_name_ok pubmed db Hhome) as [name [Hn Hspec]].
  exists name. unfold format_bioregistry_json; cbv zeta. rewrite Hn. cbn [bind].
  eexists. split; [reflexivity|]. split; [reflexivity|].
  split; [exact Hspec | apply key_of_name_shape].
Qed.

Lemma assembler_name_and_key_witness :
  exists name rec,
    format_bioregistry_json
      (pubmed_dict empty_str empty_str EmptyString empty_str "1" None "https://www.kegg.jp/x" [])
      None PyNone
      = Ok (PyDict [(key_of_name name, PyDict rec)])
    /\ dict_get rec "name" = Some (PyStr name)
    /\ (name = "kegg" /\ nonempty "kegg" = true /\ forall_chars not_slash_dot "kegg" = true)
    /\ (key_of_name name = "database_key"
        \/ (nonempty (key_of_name name) = true
            /\ forall_chars is_lower_alnum (key_of_name name) = true)).
Proof.
  exact (assembler_name_and_key
           (pubmed_dict empty_str empty_str EmptyString empty_str "1" None "https://www.kegg.jp/x" [])
           None PyNone
           (fun v Hv => ltac:(vm_compute in Hv; injection Hv as <-; eexists; reflexivity))).
Defined.

(** C7 fails as stated: the homepage "ftp://ftp.ebi.ac.uk/pub" is present,
    but the name is "database" (and the key "database"), not its domain
    label "ftp". *)
Lemma assembler_name_ftp_cx :
  exists rec,
    format_bioregistry_json
      (pubmed_dict empty_str empty_str EmptyString empty_str "1" None EmptyString [])
      (Some (mkDb EmptyString EmptyString EmptyString "ftp://ftp.ebi.ac.uk/pub"
               EmptyString EmptyString EmptyString EmptyString EmptyString []))
      PyNone
      = Ok (PyDict [("database", PyDict rec)])
    /\ dict_get rec "name" = Some (PyStr "database")
    /\ dict_get rec "homepage" = Some (PyStr "ftp://ftp.ebi.ac.uk/pub").
Proof. eexists. split; [reflexivity | split; reflexivity]. Qed.

(** ** C8 *)

(** C8: whenever the publication record is present (a non-empty mapping, as
    [extract_pubmed_metadata] always returns) and its [homepage] entry is
    absent or a string, the assembled record's [publications] list holds
    exactly one entry, built from the record's [doi], [pmid], [title] and
    [year], each defaulted ([""], [""], [""], [None]) when empty or null. *)
Theorem assembler_one_publication (pubmed : pydict) (db : option DbInfo) (contributor : pyval)
  (Hpm : pubmed <> [])
  (Hhome : forall v, dict_get pubmed "homepage" = Some v -> exists h, v = PyStr h) :
  exists key rec,
    format_bioregistry_json pubmed db contributor = Ok (PyDict [(key, PyDict rec)])
    /\ dict_get rec "publications"
       = Some (PyList [PyDict [("doi", py_or (get_default pubmed "doi" PyNone) empty_str);
                               ("pubmed", py_or (get_default pubmed "pmid" PyNone) empty_str);
                               ("title", py_or (get_default pubmed "title" PyNone) empty_str);
                               ("year", py_or (get_default pubmed "year" PyNone) PyNone)]]).
Proof.
  destruct (assembler_name_ok pubmed db Hhome) as [name [Hn _]].
  unfold format_bioregistry_json; cbv zeta. rewrite Hn. cbn [bind].
  destruct pubmed as [|kv pubmed']; [contradiction|].
  do 2 eexists. split; reflexivity.
Qed.

Lemma assembler_one_publication_witness :
  exists key rec,
    format_bioregistry_json
      (pubmed_dict empty_str empty_str EmptyString empty_str EmptyString None EmptyString [])
      None PyNone = Ok (PyDict [(key, PyDict rec)])
    /\ dict_get rec "publications"
       = Some (PyList [PyDict [("doi", empty_str); ("pubmed", empty_str);
                               ("title", empty_str); ("year", PyNone)]]).
Proof.
  exact (assembler_one_publication
           (pubmed_dict empty_str empty_str EmptyString empty_str EmptyString None EmptyString [])
           None PyNone ltac:(discriminate)
           (fun v Hv => ltac:(vm_compute in Hv; injection Hv as <-; eexists; reflexivity))).
Defined.

(** ** C10 *)

(** C10: when the publication record produced by [extract_pubmed_metadata]
    carries a non-empty keyword list, the assembled record's [keywords] is
    that list unchanged, whatever DatabaseInfo says; and such a list may be
    longer than 3: a client record with five keywords gives an assembled
    record with those five keywords. *)
Theorem assembler_copies_pubmed_keywords (title doi : pyval) (abstract : string)
    (first_author : pyval) (pmid : string) (year : option Z) (homepage : string)
    (keywords : list string) (db : option DbInfo) (contributor : pyval)
  (Hkw : keywords <> []) :
  (exists key rec,
     format_bioregistry_json
       (pubmed_dict title doi abstract first_author pmid year homepage keywords) db contributor
       = Ok (PyDict [(key, PyDict rec)])
     /\ dict_get rec "keywords" = Some (PyList (map PyStr keywords)))
  /\ match extract_pubmed_metadata five_keyword_client "1" with
     | Ok pm =>
         exists key rec,
           format_bioregistry_json pm None PyNone = Ok (PyDict [(key, PyDict rec)])
           /\ dict_get rec "keywords"
              = Some (PyList (map PyStr ["a"; "b"; "c"; "d"; "e"]))
     | Raise _ => False
     end.
Proof.
  split.
  - destruct (assembler_name_ok
                (pubmed_dict title doi abstract first_author pmid year homepage keywords) db
                (pubmed_dict_home title doi abstract first_author pmid year homepage keywords))
      as [name [Hn _]].
    unfold format_bioregistry_json; cbv zeta. rewrite Hn. cbn [bind].
    destruct keywords as [|k ks]; [contradiction|].
    do 2 eexists. split; reflexivity.
  - vm_compute. do 2 eexists. split; reflexivity.
Qed.

Lemma assembler_copies_pubmed_keywords_witness :
  exists key rec,
    format_bioregistry_json
      (pubmed_dict empty_str empty_str EmptyString empty_str "1" None EmptyString
         ["a"; "b"; "c"; "d"])
      None PyNone = Ok (PyDict [(key, PyDict rec)])
    /\ dict_get rec "keywords" = Some (PyList [PyStr "a"; PyStr "b"; PyStr "c"; PyStr "d"]).
Proof.
  exact (proj1 (assembler_copies_pubmed_keywords empty_str empty_str EmptyString empty_str "1"
                  None EmptyString ["a"; "b"; "c"; "d"] None PyNone ltac:(discriminate))).
Defined.

(** ** C3 *)

(** C3 (amended): an import failure, an exception of the fetch and an empty
    answer each give an [error] dictionary.  For any other answer the
    selected record is always found, and then [extract_pubmed_metadata]
    returns the eight-field metadata dictionary (with no [error] field) when
    the record is well shaped ([item_well_shaped]: a mapping whose author
    list is empty, a list or a string, whose [pubdate], when read, is empty
    or a string, and whose abstract is empty or a string), and raises
    otherwise: exceptions past the fetch are not caught. *)
Theorem pubmed_metadata_outcomes (indra : indra_client) (pmid : string) :
  match indra with
  | IndraImportFails msg =>
      extract_pubmed_metadata indra pmid = Ok (error_dict ("INDRA import error: " ++ msg))
  | IndraLoaded get_metadata_for_ids =>
      match get_metadata_for_ids pmid with
      | FetchRaises msg =>
          extract_pubmed_metadata indra pmid = Ok (error_dict ("PubMed fetch error: " ++ msg))
      | FetchReturns raw =>
          if truthy raw then
            exists item, select_item raw pmid = Ok item
              /\ match extract_pubmed_metadata indra pmid with
                 | Ok r =>
                     item_well_shaped item = true
                     /\ exists title doi abstract first_author year homepage keywords,
                          r = pubmed_dict title doi abstract first_author pmid year
                                homepage keywords
                 | Raise _ => item_well_shaped item = false
                 end
          else extract_pubmed_metadata indra pmid
               = Ok (error_dict "No metadata returned from PubMed")
      end
  end.
Proof.
  destruct indra as [msg|get]; [reflexivity|].
  destruct (get pmid) as [msg|raw] eqn:Hg; cbn [extract_pubmed_metadata]; rewrite Hg;
    [reflexivity|].
  destruct (truthy raw) eqn:Hr; cbn [negb]; [|reflexivity].
  destruct (select_item_ok raw pmid Hr) as [item Hi].
  exists item. split; [exact Hi|]. rewrite Hi. cbn [bind].
  pose proof (metadata_of_item_spec item pmid) as Hs.
  destruct (metadata_of_item item pmid) as [r|e]; [|exact Hs].
  destruct Hs as [Hw (t & d & a & fa & y & h & k & Hr' & _)].
  split; [exact Hw|]. do 7 eexists. exact Hr'.
Qed.

(** C3 fails as stated: a client answer mapping the PMID to [None] makes
    [extract_pubmed_metadata] raise [AttributeError] instead of returning a
    dictionary. *)
Lemma pubmed_metadata_none_item_cx :
  extract_pubmed_metadata (IndraLoaded (fun _ => FetchReturns (PyDict [("1", PyNone)]))) "1"
  = Raise (Exn "AttributeError" "'NoneType' object has no attribute 'get'").
Proof. reflexivity. Qed.

(** ** C2 *)

(** C2 (amended): the endpoint reads [pmid] from the JSON object (a missing
    or falsy value counts as [""]) and strips surrounding whitespace before
    the check.  A string [pmid] whose stripped form is one or more digits is
    accepted, the pipeline runs on the stripped form, and the answer is never
    the invalid-PMID response; any other string (empty, blank, with a
    non-digit) gets that fixed 400 response.  A falsy body (JSON null,
    false, 0, an empty string or an empty list) is replaced by the empty
    object by [or {}], so it too gets the 400 response.  A truthy [pmid]
    that is not a string, or a truthy body that is not an object, makes the
    view raise [AttributeError]. *)
Theorem extract_validates_pmid (email_search : string -> option string)
    (email_remove : string -> string) (indra : indra_client)
    (agent : string -> agent_outcome) (body : pyval) :
  match py_or body (PyDict []) with
  | PyDict d =>
      match py_or (get_default d "pmid" PyNone) empty_str with
      | PyStr s =>
          if fullmatch_digits (strip s) then
            exists c, validate body = Ok (Accept (strip s) c)
              /\ exists r, extract email_search email_remove indra agent body = Ok r
                           /\ r <> invalid_pmid_response
          else extract email_search email_remove indra agent body = Ok invalid_pmid_response
      | v => extract email_search email_remove indra agent body = Raise (attr_error v "strip")
      end
  | v => extract email_search email_remove indra agent body = Raise (attr_error v "get")
  end.
Proof.
  unfold extract, validate; cbv zeta.
  destruct (py_or body (PyDict [])) as [|b|z|s|l|d]; try reflexivity.
  cbn [py_get bind]. unfold get_default.
  destruct (py_or (match dict_get d "pmid" with Some x => x | None => PyNone end) empty_str)
    as [|b|z|s|l|d']; cbn [bind]; try reflexivity.
  destruct (fullmatch_digits (strip s)) eqn:Ef.
  - assert (Hn : nonempty (strip s) = true).
    { unfold fullmatch_digits in Ef. apply andb_prop in Ef. exact (proj1 Ef). }
    rewrite Hn. cbn [negb orb bind].
    eexists. split; [reflexivity|].
    destruct (run_pipeline email_search email_remove indra agent (strip s) _) as [r|e] eqn:Hp.
    + exists r. split; [reflexivity|]. exact (run_pipeline_not_invalid _ _ _ _ _ _ _ Hp).
    + eexists. split; [reflexivity|]. intros H. discriminate H.
  - rewrite orb_true_r. reflexivity.
Qed.

(** C2 fails as stated: the string " 123", which holds a non-digit, is
    accepted (it is stripped to "123" and the pipeline runs), and the
    non-string pmid 123 gets no 400 response: the view raises. *)
Lemma extract_validates_pmid_cx :
  validate (PyDict [("pmid", PyStr " 123")]) = Ok (Accept "123" (PyDict []))
  /\ extract no_email keep_name (IndraImportFails "m") silent_agent
       (PyDict [("pmid", PyStr " 123")])
     = Ok (mkResponse 500 (error_body (PyStr "INDRA import error: m")))
  /\ extract no_email keep_name (IndraImportFails "m") silent_agent
       (PyDict [("pmid", PyInt 123)])
     = Raise (Exn "AttributeError" "'int' object has no attribute 'strip'").
Proof. split; [|split]; reflexivity. Qed.

(** ** C1 *)

(** C1: for a request whose pmid passes validation the view always answers
    (nothing escapes it).  The answers are the four the claim lists, plus a
    500 from the view's catch-all when [extract_pubmed_metadata] itself
    raises, plus one branch the design excludes: the log line at app.py:456
    slices the title, and when that slice raises the view answers 500 where
    the claim asks for 400 or 200.  Logging is meant never to alter control
    flow, so that branch is a defect of the code.  In full, the answer is:
    - 500 with the exception text, if [extract_pubmed_metadata] raises;
    - 500 with the [error] message and no [data], if its result has one;
    - otherwise the result is a metadata dictionary, and the view slices its
      title, answering 500 with the exception text when the title cannot be
      sliced (a truthy title that is not a string or list);
    - else 400 with the no-URL message and the record assembled without
      DatabaseInfo under [data], when the abstract holds no URL;
    - else 500 with "Database scraping failed: " and the exception text and
      that partial record under [data], when the extractor raises on the
      first URL;
    - else 200 with status "success" and the record assembled with the
      extracted DatabaseInfo. *)
Theorem extract_responses (email_search : string -> option string)
    (email_remove : string -> string) (indra : indra_client)
    (agent : string -> agent_outcome) (body : pyval) (pmid : string) (contributor : pyval)
  (Hv : validate body = Ok (Accept pmid contributor)) :
  exists r, extract email_search email_remove indra agent body = Ok r
  /\ match extract_pubmed_metadata indra pmid with
     | Raise e => r = mkResponse 500 (error_body (PyStr (exn_msg e)))
     | Ok pm =>
       if truthy (get_default pm "error" PyNone)
       then r = mkResponse 500 (error_body (get_default pm "error" PyNone))
       else exists title doi abstract first_author year homepage keywords,
         pm = pubmed_dict title doi abstract first_author pmid year homepage keywords
         /\ match py_slice50 title with
            | Raise e => r = mkResponse 500 (error_body (PyStr (exn_msg e)))
            | Ok _ =>
              match find_urls abstract with
              | [] =>
                  exists partial, format_bioregistry_json pm None contributor = Ok partial
                  /\ r = mkResponse 400 (PyDict [("status", PyStr "error");
                                                 ("message", PyStr no_url_message);
                                                 ("data", partial)])
              | homepage_url :: _ =>
                  match extract_database_info email_search email_remove agent homepage_url with
                  | Raise e =>
                      exists partial, format_bioregistry_json pm None contributor = Ok partial
                      /\ r = mkResponse 500
                               (PyDict [("status", PyStr "error");
                                        ("message", PyStr ("Database scraping failed: "
                                                           ++ exn_msg e));
                                        ("data", partial)])
                  | Ok db =>
                      exists out, format_bioregistry_json pm (Some db) contributor = Ok out
                      /\ r = mkResponse 200 (PyDict [("status", PyStr "success");
                                                     ("data", out)])
                  end
              end
            end
     end.
Proof.
  unfold extract. rewrite Hv. cbn [bind]. unfold run_pipeline.
  destruct (extract_pubmed_metadata indra pmid) as [pm|e] eqn:Hpm; cbn [bind];
    [|eexists; split; reflexivity].
  destruct (truthy (get_default pm "error" PyNone)) eqn:Herr; [eexists; split; reflexivity|].
  destruct (extract_pubmed_metadata_ok_shape _ _ _ Hpm)
    as [[msg [-> Hmsg]] | (t & d & a & fa & y & h & k & ->)].
  { exfalso. unfold nonempty in Hmsg. cbn in Herr. rewrite Hmsg in Herr. discriminate Herr. }
  change (get_default (pubmed_dict t d a fa pmid y h k) "title" (PyStr "N/A")) with t.
  change (get_default (pubmed_dict t d a fa pmid y h k) "abstract" PyNone) with (PyStr a).
  rewrite py_or_str_empty.
  destruct (py_slice50 t) as [sl|e] eqn:Hs; cbn [bind];
    [|eexists; split; [reflexivity|]; do 7 eexists; split; [reflexivity|];
      rewrite Hs; reflexivity].
  destruct (find_urls a) as [|u us] eqn:Hu.
  - destruct (format_pubmed_dict_ok t d a fa pmid y h k None contributor) as [partial Hp].
    rewrite Hp. cbn [bind]. eexists; split; [reflexivity|].
    do 7 eexists; split; [reflexivity|]. rewrite Hs, Hu.
    exists partial. split; [first [exact Hp | reflexivity] | reflexivity].
  - destruct (extract_database_info email_search email_remove agent u) as [db|e] eqn:Hdb.
    + destruct (format_pubmed_dict_ok t d a fa pmid y h k (Some db) contributor) as [out Hp].
      rewrite Hp. cbn [bind]. eexists; split; [reflexivity|].
      do 7 eexists; split; [reflexivity|]. rewrite Hs, Hu, Hdb.
      exists out. split; [first [exact Hp | reflexivity] | reflexivity].
    + destruct (format_pubmed_dict_ok t d a fa pmid y h k None contributor) as [partial Hp].
      rewrite Hp. cbn [bind]. eexists; split; [reflexivity|].
      do 7 eexists; split; [reflexivity|]. rewrite Hs, Hu, Hdb.
      exists partial. split; [first [exact Hp | reflexivity] | reflexivity].
Qed.

Lemma extract_responses_witness :
  exists r,
    extract no_email keep_name
      (IndraLoaded (fun _ => FetchReturns (PyDict [("1", PyDict
         [("title", PyStr "T"); ("abstract", PyStr "DB at https://x.org/db.")])])))
      silent_agent (PyDict [("pmid", PyStr "1")]) = Ok r
    /\ status_code r = 200%Z.
Proof.
  destruct (extract_responses no_email keep_name
      (IndraLoaded (fun _ => FetchReturns (PyDict [("1", PyDict
         [("title", PyStr "T"); ("abstract", PyStr "DB at https://x.org/db.")])])))
      silent_agent (PyDict [("pmid", PyStr "1")]) "1" (PyDict []) ltac:(reflexivity))
    as [r [He Hm]].
  exists r. split; [exact He|].
  assert (Hpm : extract_pubmed_metadata
      (IndraLoaded (fun _ => FetchReturns (PyDict [("1", PyDict
         [("title", PyStr "T"); ("abstract", PyStr "DB at https://x.org/db.")])]))) "1"
    = Ok (pubmed_dict (PyStr "T") empty_str "DB at https://x.org/db." empty_str "1" None
            "https://x.org/db" [])) by reflexivity.
  rewrite Hpm in Hm.
  assert (Herr : truthy (get_default (pubmed_dict (PyStr "T") empty_str
      "DB at https://x.org/db." empty_str "1" None "https://x.org/db" []) "error" PyNone)
      = false) by reflexivity.
  rewrite Herr in Hm. cbv beta iota in Hm.
  destruct Hm as (t & d & a & fa & y & h & k & Heq & Hrest).
  unfold pubmed_dict in Heq. injection Heq; intros; subst.
  assert (Hs : py_slice50 (PyStr "T") = Ok (PyStr "T")) by reflexivity.
  assert (Hu : find_urls "DB at https://x.org/db." = ["https://x.org/db"]) by reflexivity.
  assert (Hdb : extract_database_info no_email keep_name silent_agent "https://x.org/db"
                = Ok (db_info_of_text no_email keep_name None "https://x.org/db"))
    by reflexivity.
  rewrite Hs, Hu, Hdb in Hrest. cbv beta iota in Hrest.
  destruct Hrest as [out [_ ->]]. reflexivity.
Defined.

(** C1 fails in the code: with a record whose title is the integer 5, the
    metadata succeeds without [error] and the abstract holds no URL, yet the
    view answers 500, not 400 with the partial record, because the logging
    call on app.py:456 slices the title and the slice raises [TypeError]. *)
Lemma extract_int_title_cx :
  extract_pubmed_metadata
    (IndraLoaded (fun _ => FetchReturns (PyDict [("1", PyDict [("title", PyInt 5)])]))) "1"
    = Ok (pubmed_dict (PyInt 5) empty_str EmptyString empty_str "1" None EmptyString [])
  /\ find_urls EmptyString = []
  /\ extract no_email keep_name
       (IndraLoaded (fun _ => FetchReturns (PyDict [("1", PyDict [("title", PyInt 5)])])))
       silent_agent (PyDict [("pmid", PyStr "1")])
     = Ok (mkResponse 500 (error_body (PyStr "'int' object is not subscriptable"))).
Proof. split; [|split]; reflexivity. Qed.

(** * Further properties *)

(** X1: in [extract_pubmed_metadata], when the record's year is falsy, a year read from the pubdate (the first match of (19|20)\d{2}) lies between 1900 and 2099. *)
Theorem pubmed_year_from_pubdate (d : pydict) (pmid : string) (r : pydict) (y : Z) :
  truthy (get_default d "year" PyNone) = false ->
  metadata_of_item (PyDict d) pmid = Ok r ->
  dict_get r "year" = Some (PyInt y) ->
  (1900 <= y <= 2099)%Z.
Proof.
  intros Hy Hm Hr. unfold metadata_of_item in Hm.
  destruct (year_of (PyDict d)) as [yo|e] eqn:Eyo.
  2:{ revert Hm. cbn [py_get bind]. rewrite !get_or_dict. cbn [bind].
      destruct (first_author_of _); cbn [bind]; discriminate. }
  assert (Hyo : Some (match yo with Some z => PyInt z | None => PyNone end) = Some (PyInt y)).
  { pose proof (metadata_of_item_spec (PyDict d) pmid) as Hs. unfold metadata_of_item in Hs.
    revert Hm Hs. cbn [py_get bind]. rewrite !get_or_dict. cbn [bind].
    destruct (first_author_of _); cbn [bind]; [|discriminate].
    destruct (match py_or _ _ with PyStr s => Ok s | v => Raise (re_type_error v) end); cbn [bind];
      [|discriminate].
    destruct (keywords_of (PyDict d)); cbn [bind]; [|discriminate].
    intros H _; injection H as <-. exact Hr. }
  destruct yo as [z|]; [injection Hyo as ->|discriminate].
  revert Eyo. unfold year_of. cbn [py_get bind]. unfold get_default in Hy. rewrite Hy.
  destruct (py_or _ _); try discriminate.
  intros H; injection H as H. now apply search_year_range in H.
Qed.

Lemma pubmed_year_from_pubdate_witness :
  exists r, metadata_of_item (PyDict [("pubdate", PyStr "2021 Mar 4")]) "1" = Ok r
    /\ dict_get r "year" = Some (PyInt 2021) /\ (1900 <= 2021 <= 2099)%Z.
Proof.
  destruct (metadata_of_item (PyDict [("pubdate", PyStr "2021 Mar 4")]) "1") as [r|e] eqn:E;
    [|vm_compute in E; discriminate E].
  assert (Hy : dict_get r "year" = Some (PyInt 2021)) by (vm_compute in E; injection E as <-; reflexivity).
  exists r. split; [reflexivity|]. split; [exact Hy|].
  exact (pubmed_year_from_pubdate [("pubdate", PyStr "2021 Mar 4")] "1" r 2021 eq_refl E Hy).
Defined.

(** X2: in [extract_pubmed_metadata], when the record's keywords field is a non-empty string, every keyword returned is non-empty, has no surrounding whitespace and contains no comma. *)
Theorem pubmed_string_keywords_clean (d : pydict) (s : string) (ks : list string) :
  dict_get d "keywords" = Some (PyStr s) -> s <> EmptyString ->
  keywords_of (PyDict d) = Ok ks ->
  Forall (fun k => k <> EmptyString /\ strip k = k /\ has_char "," k = false) ks.
Proof.
  intros Hd Hs Hk. unfold keywords_of in Hk. rewrite get_or_dict, Hd in Hk.
  destruct s as [|c s']; [congruence|].
  pose proof (clean_pieces "," (String c s')) as Hc.
  unfold py_or in Hk. simpl in Hk. injection Hk as <-. exact Hc.
Qed.

Lemma pubmed_string_keywords_clean_witness :
  keywords_of (PyDict [("keywords", PyStr "genes, , ontology ")]) = Ok ["genes"; "ontology"]
  /\ Forall (fun k => k <> EmptyString /\ strip k = k /\ has_char "," k = false) ["genes"; "ontology"].
Proof.
  assert (H : keywords_of (PyDict [("keywords", PyStr "genes, , ontology ")]) = Ok ["genes"; "ontology"])
    by reflexivity.
  split; [exact H|].
  exact (pubmed_string_keywords_clean [("keywords", PyStr "genes, , ontology ")] "genes, , ontology " _
           eq_refl ltac:(discriminate) H).
Defined.

(** X4: every URL produced by the abstract scan (the findall of https?://[^\s\)\]]+ followed by the trailing-punctuation cleanup) starts with http:// or https://, contains no whitespace, ) or ], and does not end in . , ; or :. *)
Theorem find_urls_shape (text u : string) :
  In u (find_urls text) ->
  (exists rest, u = "http://" ++ rest \/ u = "https://" ++ rest)
  /\ forall_chars (fun c => negb (is_url_stop c)) u = true
  /\ ends_with is_trail_punct u = false.
Proof.
  rewrite find_urls_spec. unfold spec_urls. intros H.
  apply in_map_iff in H as [u0 [<- Hin]].
  apply in_flat_map in Hin as [t [Ht Hu0]].
  unfold url_of_run in Hu0. destruct (first_url_in_run t) as [u1|] eqn:Ef; [|destruct Hu0].
  destruct Hu0 as [<-|[]].
  destruct (first_url_in_run_spec t u1 Ef) as [Hlit [pre ->]].
  pose proof (proj1 (Forall_forall _ _) (runs_chars text) _ Ht) as Hc.
  cbv beta in Hc. rewrite forall_chars_app in Hc. apply andb_prop in Hc as [_ Hc].
  split; [|split].
  - unfold lit_then_more in Hlit.
    apply orb_prop in Hlit as [Hl|Hl]; apply andb_prop in Hl as [Hl _];
      apply prefix_app in Hl as [r ->];
      rewrite strip_trailing_punct_app by reflexivity; eauto.
  - destruct (strip_trailing_punct_prefix u1) as [w Hw]. rewrite Hw, forall_chars_app in Hc.
    now apply andb_prop in Hc as [Hc _].
  - apply strip_trailing_punct_end.
Qed.

Lemma find_urls_shape_witness :
  In "http://a.co/x" (find_urls "see http://a.co/x.") /\
  ((exists rest, "http://a.co/x" = "http://" ++ rest \/ "http://a.co/x" = "https://" ++ rest)
   /\ forall_chars (fun c => negb (is_url_stop c)) "http://a.co/x" = true
   /\ ends_with is_trail_punct "http://a.co/x" = false).
Proof.
  assert (H : In "http://a.co/x" (find_urls "see http://a.co/x.")) by (vm_compute; left; reflexivity).
  split; [exact H | exact (find_urls_shape _ _ H)].
Defined.

(** X5: in the extractor's line parser, the name field holds the value of the last parsed line whose normalised label is name: a line labelled name sets it, and later lines with other labels leave it unchanged. *)
Theorem parse_name_last_line (before after : list string) (ln raw v : string) (e : DbInfo) :
  parse_line ln = Some (raw, v) -> label_norm raw = "name" ->
  (forall l raw' v', In l after -> parse_line l = Some (raw', v') -> label_norm raw' <> "name") ->
  db_name (fold_left update_field (before ++ ln :: after) e) = v.
Proof.
  intros Hp Hl Ha. rewrite fold_left_app. cbn [fold_left].
  generalize (update_field_name_set (fold_left update_field before e) ln raw v Hp Hl).
  generalize (update_field (fold_left update_field before e) ln).
  induction after as [|l r IH]; intros e' He'; cbn [fold_left]; [exact He'|].
  apply IH.
  - intros l' r' v' Hin. apply Ha. now right.
  - rewrite update_field_name_keep; [exact He'|]. intros r' v'. apply Ha. now left.
Qed.

Lemma parse_name_last_line_witness :
  parse_line "Name: Gene Ontology" = Some ("Name", "Gene Ontology")
  /\ label_norm "Name" = "name"
  /\ db_name (fold_left update_field (["Name: GO DB"] ++ "Name: Gene Ontology" :: ["Prefix: go"])
                empty_extracted) = "Gene Ontology".
Proof.
  assert (H1 : parse_line "Name: Gene Ontology" = Some ("Name", "Gene Ontology")) by reflexivity.
  assert (H2 : label_norm "Name" = "name") by reflexivity.
  split; [exact H1|]. split; [exact H2|].
  apply (parse_name_last_line _ _ _ _ _ _ H1 H2).
  intros l r v [<-|[]] H. vm_compute in H. injection H as <- <-. discriminate.
Defined.

(** X6: when the agent's final text contains no colon, the extractor fills no field from it: every field is empty except the homepage, which is the URL it was called on. *)
Theorem extractor_no_colon_text (email_search : string -> option string)
    (email_remove : string -> string) (t homepage_url : string) :
  has_char ":" t = false ->
  db_info_of_text email_search email_remove (Some t) homepage_url
  = mkDb EmptyString EmptyString EmptyString homepage_url EmptyString EmptyString
         EmptyString EmptyString EmptyString [].
Proof.
  intros H. unfold db_info_of_text. rewrite parse_agent_text_no_colon by exact H. reflexivity.
Qed.

Lemma extractor_no_colon_text_witness :
  has_char ":" "I could not find the database." = false
  /\ db_info_of_text search_email remove_email (Some "I could not find the database.") "https://x.org"
     = mkDb EmptyString EmptyString EmptyString "https://x.org" EmptyString EmptyString
            EmptyString EmptyString EmptyString [].
Proof.
  assert (H : has_char ":" "I could not find the database." = false) by reflexivity.
  split; [exact H | exact (extractor_no_colon_text _ _ _ _ H)].
Defined.

(** X7: whenever the extractor returns, its name, description, example and uri_format have no surrounding whitespace, and each of its keywords is non-empty, has no surrounding whitespace and contains no comma. *)
Theorem extractor_fields_trimmed (email_search : string -> option string)
    (email_remove : string -> string) (agent : string -> agent_outcome)
    (homepage_url : string) (d : DbInfo) :
  extract_database_info email_search email_remove agent homepage_url = Ok d ->
  strip (db_name d) = db_name d /\ strip (db_description d) = db_description d
  /\ strip (db_example d) = db_example d /\ strip (db_uri_format d) = db_uri_format d
  /\ Forall (fun k => k <> EmptyString /\ strip k = k /\ has_char "," k = false) (db_keywords d).
Proof.
  unfold extract_database_info. destruct (agent homepage_url) as [e|final]; [discriminate|].
  intros H; injection H as <-. unfold db_info_of_text. cbn [db_name db_description db_example db_uri_format db_keywords].
  unfold parse_agent_text. apply (fold_update_inv (fun e =>
    strip (db_name e) = db_name e /\ strip (db_description e) = db_description e
    /\ strip (db_example e) = db_example e /\ strip (db_uri_format e) = db_uri_format e
    /\ Forall (fun k => k <> EmptyString /\ strip k = k /\ has_char "," k = false) (db_keywords e))).
  - intros e ln. apply update_field_trimmed.
  - repeat split; constructor.
Qed.

Lemma extractor_fields_trimmed_witness :
  extract_database_info no_email keep_name
    (fun _ => AgentReturns (Some "Name:  Gene Ontology \nKeywords: genes, , terms ")) "https://x.org"
  = Ok (db_info_of_text no_email keep_name
          (Some "Name:  Gene Ontology \nKeywords: genes, , terms ") "https://x.org")
  /\ db_keywords (db_info_of_text no_email keep_name
          (Some "Name:  Gene Ontology \nKeywords: genes, , terms ") "https://x.org") = ["genes"; "terms"]
  /\ let d := db_info_of_text no_email keep_name
                (Some "Name:  Gene Ontology \nKeywords: genes, , terms ") "https://x.org" in
     strip (db_name d) = db_name d /\ strip (db_description d) = db_description d
     /\ strip (db_example d) = db_example d /\ strip (db_uri_format d) = db_uri_format d
     /\ Forall (fun k => k <> EmptyString /\ strip k = k /\ has_char "," k = false) (db_keywords d).
Proof.
  assert (H : extract_database_info no_email keep_name
    (fun _ => AgentReturns (Some "Name:  Gene Ontology \nKeywords: genes, , terms ")) "https://x.org"
    = Ok (db_info_of_text no_email keep_name
            (Some "Name:  Gene Ontology \nKeywords: genes, , terms ") "https://x.org")) by reflexivity.
  split; [exact H|]. split; [reflexivity|]. exact (extractor_fields_trimmed _ _ _ _ _ H).
Defined.

(** X8: whenever the extractor returns, the prefix is lower case: lowercasing it again leaves it unchanged, whether it was parsed or derived from the name. *)
Theorem extractor_prefix_lowercase (email_search : string -> option string)
    (email_remove : string -> string) (agent : string -> agent_outcome)
    (homepage_url : string) (d : DbInfo) :
  extract_database_info email_search email_remove agent homepage_url = Ok d ->
  lower (db_prefix d) = db_prefix d.
Proof.
  unfold extract_database_info. destruct (agent homepage_url) as [e|final]; [discriminate|].
  intros H; injection H as <-. unfold db_info_of_text, derive_prefix. cbn [db_prefix].
  destruct (negb (nonempty _) && nonempty _); [apply lower_idem|].
  unfold parse_agent_text. apply fold_update_inv; [apply update_field_prefix_lower | reflexivity].
Qed.

Lemma extractor_prefix_lowercase_witness :
  extract_database_info no_email keep_name (fun _ => AgentReturns (Some "Prefix: GO")) "https://x.org"
    = Ok (db_info_of_text no_email keep_name (Some "Prefix: GO") "https://x.org")
  /\ lower (db_prefix (db_info_of_text no_email keep_name (Some "Prefix: GO") "https://x.org"))
     = db_prefix (db_info_of_text no_email keep_name (Some "Prefix: GO") "https://x.org").
Proof.
  assert (H : extract_database_info no_email keep_name (fun _ => AgentReturns (Some "Prefix: GO"))
                "https://x.org" = Ok (db_info_of_text no_email keep_name (Some "Prefix: GO") "https://x.org"))
    by reflexivity.
  split; [exact H | exact (extractor_prefix_lowercase _ _ _ _ _ H)].
Defined.

(** X9: with the source's e-mail regular expressions, when the parsed contact e-mail is empty and the search finds an address m in the contact name, the extractor's contact e-mail is m, an e-mail-shaped substring of the name, and its contact name is the name with the address removed and then stripped. *)
Theorem extractor_contact_email_from_name (final : option string) (homepage_url m : string) :
  db_contact_email (parse_agent_text final) = EmptyString ->
  search_email (db_contact_name (parse_agent_text final)) = Some m ->
  db_contact_email (db_info_of_text search_email remove_email final homepage_url) = m
  /\ db_contact_name (db_info_of_text search_email remove_email final homepage_url)
     = remove_email (db_contact_name (parse_agent_text final))
  /\ (exists pre post, db_contact_name (parse_agent_text final) = pre ++ m ++ post)
  /\ email_shaped m.
Proof.
  intros He Hs. destruct (search_email_spec _ _ Hs) as [Hsub Hm].
  unfold db_info_of_text. cbn [db_contact_email db_contact_name]. rewrite He.
  destruct (db_contact_name (parse_agent_text final)) as [|c r] eqn:En; [discriminate|].
  cbn [nonempty negb String.eqb andb]. rewrite Hs. simpl.
  split; [reflexivity|]. split; [reflexivity|]. split; [exact Hsub | exact Hm].
Qed.

Lemma extractor_contact_email_from_name_witness :
  let final := Some "Contact name: Jane Roe (jane@ebi.ac.uk)" in
  db_contact_email (parse_agent_text final) = EmptyString
  /\ search_email (db_contact_name (parse_agent_text final)) = Some "jane@ebi.ac.uk"
  /\ db_contact_email (db_info_of_text search_email remove_email final "https://x.org")
     = "jane@ebi.ac.uk"
  /\ db_contact_name (db_info_of_text search_email remove_email final "https://x.org")
     = remove_email (db_contact_name (parse_agent_text final))
  /\ (exists pre post, db_contact_name (parse_agent_text final) = pre ++ "jane@ebi.ac.uk" ++ post)
  /\ email_shaped "jane@ebi.ac.uk".
Proof.
  intros final.
  assert (H1 : db_contact_email (parse_agent_text final) = EmptyString) by reflexivity.
  assert (H2 : search_email (db_contact_name (parse_agent_text final)) = Some "jane@ebi.ac.uk")
    by reflexivity.
  split; [exact H1|]. split; [exact H2|].
  exact (extractor_contact_email_from_name final "https://x.org" _ H1 H2).
Defined.

(** X10: the e-mail removal (re.sub of the bracketed address pattern, then strip) on a name that contains no @ only strips the surrounding whitespace. *)
Theorem remove_email_without_at (name : string) :
  has_char "@" name = false -> remove_email name = strip name.
Proof. intros H. unfold remove_email. now rewrite sub_email_no_at. Qed.

Lemma remove_email_without_at_witness :
  has_char "@" " Jane Roe (EBI) " = false /\ remove_email " Jane Roe (EBI) " = "Jane Roe (EBI)".
Proof.
  assert (H : has_char "@" " Jane Roe (EBI) " = false) by reflexivity.
  split; [exact H|]. rewrite (remove_email_without_at _ H). reflexivity.
Defined.

(** X11: [format_bioregistry_json] raises only when it has to search a homepage for a name: the database name is blank, the database homepage is empty, and the publication homepage is not a string; the exception is then the TypeError of re.search. *)
Theorem assembler_raises_only_on_nonstring_homepage (pubmed : pydict) (db : option DbInfo)
    (contributor : pyval) (e : exn) :
  format_bioregistry_json pubmed db contributor = Raise e ->
  strip (match db with Some d => db_name d | None => EmptyString end) = EmptyString
  /\ match db with Some d => db_homepage d | None => EmptyString end = EmptyString
  /\ is_str (get_default pubmed "homepage" empty_str) = false
  /\ e = re_type_error (get_default pubmed "homepage" empty_str).
Proof.
  unfold format_bioregistry_json. cbv zeta.
  destruct (assembler_name pubmed db) as [name|e'] eqn:En; cbn [bind]; [discriminate|].
  intros H; injection H as <-. revert En. unfold assembler_name. cbv zeta.
  destruct (strip (match db with Some d => db_name d | None => EmptyString end)) as [|c r];
    [|discriminate]. cbn [nonempty negb String.eqb].
  unfold py_or at 1. set (h := match db with Some d => db_homepage d | None => EmptyString end).
  destruct h as [|c r] eqn:Eh; cbn [truthy negb String.eqb].
  - destruct (get_default pubmed "homepage" empty_str) as [|b|z|s|l|d]; try discriminate;
      intros H; injection H as <-; repeat split; reflexivity.
  - discriminate.
Qed.

Lemma assembler_raises_only_on_nonstring_homepage_witness :
  format_bioregistry_json [("homepage", PyNone)] None PyNone = Raise (re_type_error PyNone)
  /\ strip EmptyString = EmptyString /\ EmptyString = EmptyString
  /\ is_str (get_default [("homepage", PyNone)] "homepage" empty_str) = false
  /\ re_type_error PyNone = re_type_error (get_default [("homepage", PyNone)] "homepage" empty_str).
Proof.
  assert (H : format_bioregistry_json [("homepage", PyNone)] None PyNone = Raise (re_type_error PyNone))
    by reflexivity.
  split; [exact H|]. exact (assembler_raises_only_on_nonstring_homepage _ None _ _ H).
Defined.

(** X13: when the publication record has no keywords and the extractor succeeded, the assembled record's keywords are the extractor's keywords, and there are at most three of them. *)
Theorem assembler_falls_back_to_extracted_keywords (email_search : string -> option string)
    (email_remove : string -> string) (agent : string -> agent_outcome) (homepage_url : string)
    (title doi : pyval) (abstract : string) (first_author : pyval) (pmid : string)
    (year : option Z) (homepage : string) (contributor : pyval) (db : DbInfo) (out : pyval) :
  extract_database_info email_search email_remove agent homepage_url = Ok db ->
  format_bioregistry_json (pubmed_dict title doi abstract first_author pmid year homepage [])
    (Some db) contributor = Ok out ->
  exists key fields, out = PyDict [(key, PyDict fields)]
    /\ dict_get fields "keywords" = Some (PyList (map PyStr (db_keywords db)))
    /\ (length (db_keywords db) <= 3)%nat.
Proof.
  intros Hx Hf. unfold format_bioregistry_json in Hf. cbv zeta in Hf.
  destruct (assembler_name _ _) as [name|e]; cbn [bind] in Hf; [|discriminate].
  injection Hf as <-. do 2 eexists. split; [reflexivity|]. split.
  - simpl. destruct (db_keywords db); reflexivity.
  - unfold extract_database_info in Hx. destruct (agent homepage_url); [discriminate|].
    injection Hx as <-. simpl. unfold parse_agent_text. apply fold_update_keywords. simpl. lia.
Qed.

Lemma assembler_falls_back_to_extracted_keywords_witness :
  let db := db_info_of_text no_email keep_name (Some "Keywords: a, b, c, d") "https://x.org" in
  extract_database_info no_email keep_name (fun _ => AgentReturns (Some "Keywords: a, b, c, d"))
    "https://x.org" = Ok db
  /\ exists out,
       format_bioregistry_json (pubmed_dict (PyStr "T") empty_str "" empty_str "1" None "" [])
         (Some db) PyNone = Ok out
       /\ exists key fields, out = PyDict [(key, PyDict fields)]
          /\ dict_get fields "keywords" = Some (PyList (map PyStr (db_keywords db)))
          /\ (length (db_keywords db) <= 3)%nat.
Proof.
  intros db.
  assert (H1 : extract_database_info no_email keep_name (fun _ => AgentReturns (Some "Keywords: a, b, c, d"))
                 "https://x.org" = Ok db) by reflexivity.
  split; [exact H1|].
  destruct (format_bioregistry_json (pubmed_dict (PyStr "T") empty_str "" empty_str "1" None "" [])
              (Some db) PyNone) as [out|e] eqn:E; [|vm_compute in E; discriminate E].
  exists out. split; [reflexivity|].
  exact (assembler_falls_back_to_extracted_keywords _ _ _ _ _ _ _ _ _ _ _ _ _ _ H1 E).
Defined.

(** X14: every response of the /extract handler is either a 200 whose body maps status to success and has a data key and no message key, or a 400 or 500 whose body maps status to error and has a message key.  Stated by key lookup, so it does not depend on the key order jsonify writes. *)
Theorem extract_status_and_body (email_search : string -> option string)
    (email_remove : string -> string) (indra : indra_client) (agent : string -> agent_outcome)
    (body0 : pyval) (r : response) :
  extract email_search email_remove indra agent body0 = Ok r ->
  (status_code r = 200%Z
   /\ exists d data, body r = PyDict d /\ dict_get d "status" = Some (PyStr "success")
                    /\ dict_get d "data" = Some data /\ dict_get d "message" = None)
  \/ ((status_code r = 400%Z \/ status_code r = 500%Z)
      /\ exists d m, body r = PyDict d /\ dict_get d "status" = Some (PyStr "error")
                     /\ dict_get d "message" = Some m).
Proof.
  unfold extract. destruct (validate body0) as [v|e]; cbn [bind]; [|discriminate].
  destruct v as [|pmid contributor].
  - intros H; injection H as <-. right. split; [now left | body_keys].
  - destruct (run_pipeline email_search email_remove indra agent pmid contributor) as [r'|e] eqn:E.
    + intros H; injection H as <-. exact (run_pipeline_shape _ _ _ _ _ _ _ E).
    + intros H; injection H as <-. right. split; [now right | body_keys].
Qed.

Lemma extract_status_and_body_witness :
  exists r, extract no_email keep_name five_keyword_client silent_agent (PyDict [("pmid", PyStr "1")])
            = Ok r
    /\ ((status_code r = 200%Z
         /\ exists d data, body r = PyDict d /\ dict_get d "status" = Some (PyStr "success")
                          /\ dict_get d "data" = Some data /\ dict_get d "message" = None)
        \/ ((status_code r = 400%Z \/ status_code r = 500%Z)
            /\ exists d m, body r = PyDict d /\ dict_get d "status" = Some (PyStr "error")
                           /\ dict_get d "message" = Some m)).
Proof.
  destruct (extract no_email keep_name five_keyword_client silent_agent (PyDict [("pmid", PyStr "1")]))
    as [r|e] eqn:E; [|vm_compute in E; discriminate E].
  exists r. split; [reflexivity|].
  exact (extract_status_and_body _ _ _ _ _ _ E).
Defined.

(** X15: for a JSON-object body whose pmid is absent, falsy or a string, the /extract handler never raises: it always produces a response. *)
Theorem extract_answers_json_objects (email_search : string -> option string)
    (email_remove : string -> string) (indra : indra_client) (agent : string -> agent_outcome)
    (d : pydict) :
  (forall v, dict_get d "pmid" = Some v -> truthy v = false \/ is_str v = true) ->
  exists r, extract email_search email_remove indra agent (PyDict d) = Ok r.
Proof.
  intros Hp. destruct (validate_dict_ok d Hp) as [v Hv]. unfold extract. rewrite Hv. cbn [bind].
  destruct v as [|pmid contributor]; [eexists; reflexivity|].
  destruct (run_pipeline _ _ _ _ _ _); eexists; reflexivity.
Qed.

Lemma extract_answers_json_objects_witness :
  (forall v, dict_get [("pmid", PyStr " 123 ")] "pmid" = Some v -> truthy v = false \/ is_str v = true)
  /\ exists r, extract no_email keep_name five_keyword_client silent_agent
                 (PyDict [("pmid", PyStr " 123 ")]) = Ok r.
Proof.
  assert (H : forall v, dict_get [("pmid", PyStr " 123 ")] "pmid" = Some v
                        -> truthy v = false \/ is_str v = true)
    by (intros v Hv; vm_compute in Hv; injection Hv as <-; right; reflexivity).
  split; [exact H|]. exact (extract_answers_json_objects _ _ _ _ _ H).
Defined.
